(** * Image classification gallery app: a shallow embedding

    Source: [gallery/image_classification/image_classification.py].

    The module wraps six pretrained Keras applications in a named tuple
    ([KerasApplication]), classifies an uploaded image with the selected one
    and renders the result with Streamlit as a sentence and an Altair bar
    chart.

    What is embedded here:
    - Python floats as IEEE 754 binary64 values, computed by the Standard
      Library's executable specification [SpecFloat] (round to nearest, ties
      to even), so that [0.87 * 100] evaluates exactly as CPython does;
    - Python strings as [string] (the labels of the ImageNet class index are
      ASCII);
    - the pandas data frame as an ordered list of column names with a finite
      map from column name to column values;
    - effects (the Streamlit session, the [st.cache] store, calls into Keras
      and calls of the progress callback) by a state, error and trace monad.

    Calls into PIL, NumPy, pandas, Altair, Keras and Streamlit are modelled
    by their documented behaviour; whatever the libraries compute on pixel
    data is left as a parameter. *)

From Stdlib Require Import ZArith List String Ascii Bool Lia.
From Stdlib Require Import SpecFloat PrimFloat FloatOps DecimalString.
From stdpp Require Import base option list gmap strings.

Import ListNotations.
#[local] Set Warnings "-inexact-float".
Local Open Scope string_scope.
Local Open Scope Z_scope.

(** ** Python floats *)

Definition float : Type := spec_float.

Module Float.

(** binary64: 53 bits of precision, infinities at exponent 1024. *)
Definition prec : Z := 53.
Definition emax : Z := 1024.

Definition mul : float -> float -> float := SFmul prec emax.
Definition div : float -> float -> float := SFdiv prec emax.
Definition leb : float -> float -> bool := SFleb.

(** The float nearest to the integer [n] (an [int] operand of a float
    operation is converted this way). *)
Definition of_Z (n : Z) : float := binary_normalize prec emax n 0 false.

(** The float nearest to [num / den]; for a decimal literal such as
    [0.87 = 87 / 100], whose numerator and denominator are floats
    themselves, the correctly rounded quotient is the float the Python
    parser yields for the literal. *)
Definition of_ratio (num den : Z) : float := div (of_Z num) (of_Z den).

(** The integer nearest to [m * 2^e], ties to the even one. *)
Definition round_half_even (m : positive) (e : Z) : Z :=
  if 0 <=? e then Z.pos m * 2 ^ e
  else
    let d := 2 ^ (- e) in
    let q := Z.pos m / d in
    let r := Z.pos m mod d in
    match 2 * r ?= d with
    | Lt => q
    | Gt => q + 1
    | Eq => if Z.even q then q else q + 1
    end.

(** C [rint] in the default rounding mode. *)
Definition rint (x : float) : float :=
  match x with
  | S754_finite s m e =>
      if 0 <=? e then x
      else binary_normalize prec emax (cond_Zopp s (round_half_even m e)) 0 s
  | _ => x
  end.

(** [format(x, ".0f")]: the exact value of [x] rounded to an integer,
    ties to even, printed in decimal; the sign is printed for negative
    values, negative zero included. *)
Definition format_0f (x : float) : string :=
  match x with
  | S754_nan => "nan"
  | S754_infinity s => if s then "-inf" else "inf"
  | S754_zero s => if s then "-0" else "0"
  | S754_finite s m e =>
      (if s then "-" else "")
      ++ NilZero.string_of_uint (N.to_uint (Z.to_N (round_half_even m e)))
  end.

End Float.

(** ** Python strings *)

Module Str.

Definition upper_ascii (c : ascii) : ascii :=
  let n := nat_of_ascii c in
  if ((97 <=? n) && (n <=? 122))%nat then ascii_of_nat (n - 32) else c.

Definition lower_ascii (c : ascii) : ascii :=
  let n := nat_of_ascii c in
  if ((65 <=? n) && (n <=? 90))%nat then ascii_of_nat (n + 32) else c.

Fixpoint lower (s : string) : string :=
  match s with
  | EmptyString => EmptyString
  | String c s' => String (lower_ascii c) (lower s')
  end.

(** [str.capitalize] on ASCII text, which the labels of the ImageNet class
    index are: first character upper case, the rest lower case.  Bytes
    outside ASCII are left as they are; Python maps non-ASCII letters too,
    which this model does not cover. *)
Definition capitalize (s : string) : string :=
  match s with
  | EmptyString => EmptyString
  | String c s' => String (upper_ascii c) (lower s')
  end.

(** [needle in s]. *)
Definition contains (needle s : string) : Prop :=
  exists pre post, s = pre ++ needle ++ post.

End Str.

(** ** NumPy and pandas *)

Module Np.

(** [numpy.round(x, decimals)] for [decimals >= 0] on a float array:
    multiply by [10 ** decimals], [rint], divide by [10 ** decimals]. *)
Definition round (x : float) (decimals : nat) : float :=
  match decimals with
  | O => Float.rint x
  | _ =>
      let factor := Float.of_Z (10 ^ Z.of_nat decimals) in
      Float.div (Float.rint (Float.mul x factor)) factor
  end.

End Np.

Module Pd.

(** A column: an [object] column of strings or a [float64] column. *)
Inductive Series :=
| ObjectSeries (l : list string)
| FloatSeries (l : list float).

Inductive Cell := CStr (s : string) | CFloat (x : float).

(** A data frame: the column labels in order, and the column of each. *)
Record DataFrame := {
  df_columns : list string;
  df_data : gmap string Series
}.

Definition series_cells (s : Series) : list Cell :=
  match s with
  | ObjectSeries l => map CStr l
  | FloatSeries l => map CFloat l
  end.

(** [Series.round(decimals)] and [Series * k] on a float column.  The
    program applies them to the probability column only; an object column
    is outside the model and gets no result. *)
Definition series_round (s : Series) (decimals : nat) : option Series :=
  match s with
  | FloatSeries l => Some (FloatSeries (map (fun x => Np.round x decimals) l))
  | ObjectSeries _ => None
  end.

Definition series_mul (s : Series) (k : Z) : option Series :=
  match s with
  | FloatSeries l => Some (FloatSeries (map (fun x => Float.mul x (Float.of_Z k)) l))
  | ObjectSeries _ => None
  end.

(** [df[column]]: [None] stands for [KeyError]. *)
Definition getitem (df : DataFrame) (column : string) : option Series :=
  df_data df !! column.

(** [df[column] = series]: an existing column is replaced in place, a new
    one is appended to the column labels. *)
Definition setitem (df : DataFrame) (column : string) (s : Series) : DataFrame :=
  {| df_columns :=
       if decide (column ∈ df_columns df) then df_columns df
       else df_columns df ++ [column];
     df_data := <[column := s]> (df_data df) |}.

(** The rows from the columns. *)
Fixpoint transpose (cols : list (list Cell)) : list (list Cell) :=
  match cols with
  | [] => []
  | [c] => map (fun x => [x]) c
  | c :: cols' => zip_with cons c (transpose cols')
  end.

(** The rows of the frame in index order ([df.itertuples(index=False)]),
    restricted to the given columns and for all of them; a label without a
    column contributes nothing. *)
Definition rows_of (df : DataFrame) (columns : list string) : list (list Cell) :=
  transpose (omap (fun c => series_cells <$> getitem df c) columns).

Definition rows (df : DataFrame) : list (list Cell) :=
  rows_of df (df_columns df).

End Pd.

Module Alt.

Inductive SortOrder := ascending | descending.

(** [alt.EncodingSortField(field=..., order=...)]. *)
Record EncodingSortField := {
  sort_field : string;
  sort_order : SortOrder
}.

(** The type suffix of a shorthand such as ["prediction:N"]. *)
Inductive FieldType := Nominal | Ordinal | Quantitative | Temporal.

(** An encoding channel: the field it shows, its declared type, and the
    sort directive of its axis. *)
Record Channel := {
  ch_field : string;
  ch_type : option FieldType;
  ch_sort : option EncodingSortField
}.

Inductive Mark := mark_bar.

(** [alt.Chart(data).mark_bar().encode(x=..., y=...)]: the chart keeps the
    frame it was given and a description of the drawing. *)
Record Chart := {
  data : Pd.DataFrame;
  mark : Mark;
  encoding_x : Channel;
  encoding_y : Channel
}.

End Alt.

(** ** The wrapped Keras applications *)

(** The model classes of [keras.applications] the module imports. *)
Inductive Architecture :=
  ResNet50 | VGG16 | VGG19 | InceptionV3 | Xception | MobileNetV2.

(** The preprocessing functions the module imports. *)
Inductive PreprocessFn :=
| imagenet_utils_preprocess_input
| inception_v3_preprocess_input.

(** [class KerasApplication(NamedTuple)]. *)
Record KerasApplication := {
  name : string;
  keras_application : Architecture;
  input_shape : Z * Z;
  preprocess_input_func : PreprocessFn;
  url : string
}.

(** The defaults of the class body. *)
Definition default_input_shape : Z * Z := (224, 224).
Definition default_preprocess_input_func : PreprocessFn := imagenet_utils_preprocess_input.
Definition default_url : string := "https://keras.io/applications/".

(** The constructor with these defaults: [None] for an
    argument that the call leaves out. *)
Definition KerasApplication_new (name : string) (keras_application : Architecture)
    (input_shape : option (Z * Z)) (preprocess_input_func : option PreprocessFn)
    (url : option string) : KerasApplication :=
  {| name := name;
     keras_application := keras_application;
     input_shape := default default_input_shape input_shape;
     preprocess_input_func := default default_preprocess_input_func preprocess_input_func;
     url := default default_url url |}.

(** One decoded prediction: [(id, prediction, probability)]. *)
Definition Prediction : Type := string * string * float.

Definition KERAS_APPLICATIONS : list KerasApplication := [
  KerasApplication_new "ResNet50" ResNet50 None None
    (Some "https://keras.io/applications/#resnet");
  KerasApplication_new "VGG16" VGG16 None None
    (Some "https://keras.io/applications/#vgg16");
  KerasApplication_new "VGG19" VGG19 None None
    (Some "https://keras.io/applications/#vgg19");
  KerasApplication_new "InceptionV3" InceptionV3
    (Some (299, 299)) (Some inception_v3_preprocess_input)
    (Some "https://keras.io/applications/#inceptionv3");
  KerasApplication_new "Xception" Xception
    (Some (299, 299)) (Some inception_v3_preprocess_input)
    (Some "https://keras.io/applications/#xception");
  KerasApplication_new "MobileNetV2" MobileNetV2 None None
    (Some "https://keras.io/applications/#mobilenet")
].

Definition IMAGE_TYPES : list string := ["png"; "jpg"].

(** ** The presentation of the predictions *)

(** [pd.DataFrame(predictions, columns=[c0, c1, c2])] on a list of
    3-tuples: column [j] holds component [j] of every tuple; [None] stands
    for the [ValueError] of pandas when the number of labels is not the
    width of the tuples. *)
Definition DataFrame_of_predictions (predictions : list Prediction)
    (columns : list string) : option Pd.DataFrame :=
  match columns with
  | [c0; c1; c2] =>
      Some {| Pd.df_columns := columns;
              Pd.df_data :=
                <[c2 := Pd.FloatSeries (map snd predictions)]>
                (<[c1 := Pd.ObjectSeries (map (fun p => snd (fst p)) predictions)]>
                (<[c0 := Pd.ObjectSeries (map (fun p => fst (fst p)) predictions)]> ∅)) |}
  | _ => None
  end.

(** [KerasApplication.to_main_prediction_string]; [None] stands for the
    [IndexError] of [predictions[0]] on an empty list. *)
Definition to_main_prediction_string (predictions : list Prediction) : option string :=
  match predictions with
  | [] => None
  | (_, prediction, prob) :: _ =>
      Some ("It's a **" ++ Str.capitalize prediction ++ "** with probability "
            ++ Float.format_0f (Float.mul prob (Float.of_Z 100)) ++ "%")
  end.

(** [KerasApplication.to_predictions_chart]; [None] stands for an exception
    of pandas. *)
Definition to_predictions_chart (predictions : list Prediction) : option Alt.Chart :=
  dataframe ← DataFrame_of_predictions predictions ["id"; "prediction"; "probability"];
  probability ← Pd.getitem dataframe "probability";
  rounded ← Pd.series_round probability 2;
  scaled ← Pd.series_mul rounded 100;
  let dataframe := Pd.setitem dataframe "probability" scaled in
  Some {| Alt.data := dataframe;
          Alt.mark := Alt.mark_bar;
          Alt.encoding_x :=
            {| Alt.ch_field := "probability"; Alt.ch_type := None; Alt.ch_sort := None |};
          Alt.encoding_y :=
            {| Alt.ch_field := "prediction";
               Alt.ch_type := Some Alt.Nominal;
               Alt.ch_sort :=
                 Some {| Alt.sort_field := "probability";
                         Alt.sort_order := Alt.descending |} |} |}.

(** ** The world of a script run *)

(** Object identity of an instantiated Keras model. *)
Record Handle := {
  handle_arch : Architecture;
  handle_ref : nat
}.

Definition UploadedFile : Type := list Byte.byte.

(** What a placeholder made by [st.empty()] shows. *)
Inductive Widget :=
| WEmpty
| WProgress (value : Z)
| WMarkdown (body : string).

#[global] Instance Architecture_eq_dec : EqDecision Architecture.
Proof. solve_decision. Defined.
#[global] Instance PreprocessFn_eq_dec : EqDecision PreprocessFn.
Proof. solve_decision. Defined.
#[global] Instance KerasApplication_eq_dec : EqDecision KerasApplication.
Proof. solve_decision. Defined.

Definition Architecture_code (a : Architecture) : nat :=
  match a with
  | ResNet50 => 0 | VGG16 => 1 | VGG19 => 2
  | InceptionV3 => 3 | Xception => 4 | MobileNetV2 => 5
  end%nat.

Definition Architecture_decode (n : nat) : Architecture :=
  match n with
  | 0 => ResNet50 | 1 => VGG16 | 2 => VGG19
  | 3 => InceptionV3 | 4 => Xception | _ => MobileNetV2
  end%nat.

#[global] Instance Architecture_countable : Countable Architecture.
Proof.
  apply (inj_countable' Architecture_code Architecture_decode).
  intros []; reflexivity.
Defined.

#[global] Instance PreprocessFn_countable : Countable PreprocessFn.
Proof.
  apply (inj_countable'
           (fun f => match f with
                     | imagenet_utils_preprocess_input => false
                     | inception_v3_preprocess_input => true
                     end)
           (fun b : bool => if b then inception_v3_preprocess_input
                            else imagenet_utils_preprocess_input)).
  intros []; reflexivity.
Defined.

#[global] Instance KerasApplication_countable : Countable KerasApplication.
Proof.
  apply (inj_countable'
           (fun a => (name a, keras_application a, input_shape a,
                      preprocess_input_func a, url a))
           (fun t => let '(n, k, s, f, u) := t in
                     {| name := n; keras_application := k; input_shape := s;
                        preprocess_input_func := f; url := u |})).
  intros []; reflexivity.
Defined.

(** The state a run of the script reads and writes. *)
Record World := {
  (** [os.environ] *)
  environ : gmap string string;
  (** the module global [KERAS_APPLICATIONS] *)
  registry : list KerasApplication;
  (** the store of [st.cache] for [get_model], keyed by the arguments *)
  cache : gmap KerasApplication Handle;
  (** the next object identity *)
  next_ref : nat;
  (** the placeholders made by [st.empty()], by number *)
  placeholders : list Widget;
  (** the index the user picked in the select box *)
  selected : nat;
  (** the file in the upload control, if any *)
  uploaded : option UploadedFile
}.

Definition set_environ_of (f : gmap string string -> gmap string string) (w : World) : World :=
  {| environ := f (environ w); registry := registry w; cache := cache w;
     next_ref := next_ref w; placeholders := placeholders w;
     selected := selected w; uploaded := uploaded w |}.

Definition set_cache (f : gmap KerasApplication Handle -> gmap KerasApplication Handle)
    (w : World) : World :=
  {| environ := environ w; registry := registry w; cache := f (cache w);
     next_ref := next_ref w; placeholders := placeholders w;
     selected := selected w; uploaded := uploaded w |}.

Definition set_next_ref (f : nat -> nat) (w : World) : World :=
  {| environ := environ w; registry := registry w; cache := cache w;
     next_ref := f (next_ref w); placeholders := placeholders w;
     selected := selected w; uploaded := uploaded w |}.

Definition set_placeholders (f : list Widget -> list Widget) (w : World) : World :=
  {| environ := environ w; registry := registry w; cache := cache w;
     next_ref := next_ref w; placeholders := f (placeholders w);
     selected := selected w; uploaded := uploaded w |}.

(** The world in which Streamlit runs the script again after the user
    changed a widget: the module is executed anew, so its globals are built
    again and the page is empty; what belongs to the process, [os.environ],
    the store of [st.cache] and the objects made so far, stays. *)
Definition rerun (selected : nat) (uploaded : option UploadedFile) (w : World) : World :=
  {| environ := environ w; registry := KERAS_APPLICATIONS; cache := cache w;
     next_ref := next_ref w; placeholders := [];
     selected := selected; uploaded := uploaded |}.

(** Python exceptions; [Exception] is an instance of the base class itself. *)
Inductive Exn :=
| AttributeError
| IndexError
| ValueError
| KeyError
| OSError
| Exception
| StreamlitAPIException.

(** What the user interface is asked to do. *)
Inductive UiEvent :=
| StTitle (body : string)
| StInfo (body : string)
| StSidebarSelectbox (label : string) (options : list string)
| StSidebarInfo (body : string)
| StFileUploader (label : string) (types : list string)
| StImage (file : UploadedFile)
| StEmpty (slot : nat)
| StSubheader (body : string)
| StWrite (body : string)
| StAltairChart (chart : Alt.Chart)
| SlotEmpty (slot : nat)
| SlotProgress (slot : nat) (value : Z)
| SlotMarkdown (slot : nat) (body : string)
| Stdout (line : string).

(** Calls into PIL, NumPy and Keras. *)
Inductive LibCall :=
| PilOpen
| PilResize (size : Z * Z)
| KerasImgToArray
| NpExpandDims (axis : Z)
| KerasPreprocess (f : PreprocessFn)
| KerasInstantiate (a : Architecture)
| KerasPredict (model : Handle)
| KerasDecodePredictions.

(** What a run does, in order: calls of the progress callback, library calls
    and requests to the user interface. *)
Inductive Event :=
| Report (message : string) (value : Z)
| Lib (c : LibCall)
| Ui (e : UiEvent).

(** ** The monad: state, exceptions and a trace *)

Inductive Outcome (A : Type) :=
| Ok (a : A) (w : World)
| Raised (e : Exn) (w : World).
Arguments Ok {A} a w.
Arguments Raised {A} e w.

Definition M (E A : Type) : Type := World -> list E * Outcome A.

Definition ret {E A} (a : A) : M E A := fun w => ([], Ok a w).

Definition bind {E A B} (m : M E A) (k : A -> M E B) : M E B :=
  fun w =>
    match m w with
    | (t, Ok a w') => let '(t', o) := k a w' in ((t ++ t')%list, o)
    | (t, Raised e w') => (t, Raised e w')
    end.

Definition raise {E A} (e : Exn) : M E A := fun w => ([], Raised e w).

Definition emit {E} (ev : E) : M E unit := fun w => ([ev], Ok tt w).

Definition get {E} : M E World := fun w => ([], Ok w w).

Definition modify {E} (f : World -> World) : M E unit := fun w => ([], Ok tt (f w)).

(** A Python value that may be an exception. *)
Definition of_option {E A} (e : Exn) (o : option A) : M E A :=
  match o with
  | Some a => ret a
  | None => raise e
  end.

#[global] Instance M_ret E : MRet (M E) := fun A => @ret E A.
#[global] Instance M_bind E : MBind (M E) := fun A B k m => @bind E A B m k.

(** The trace of a run and whether it returned. *)
Definition trace_of {E A} (r : list E * Outcome A) : list E := fst r.

Definition completed {E A} (r : list E * Outcome A) : bool :=
  match snd r with
  | Ok _ _ => true
  | Raised _ _ => false
  end.

Definition world_of {E A} (r : list E * Outcome A) : World :=
  match snd r with
  | Ok _ w => w
  | Raised _ w => w
  end.

(** Whether a preprocessing function takes an array of a shape: the
    ImageNet one needs at least three channels on the last axis. *)
Definition preprocess_accepts (f : PreprocessFn) (shape : list Z) : bool :=
  match f with
  | imagenet_utils_preprocess_input => 3 <=? List.last shape 0
  | inception_v3_preprocess_input => true
  end.

(** ** The libraries *)

(** A decoded PIL image: [size] is (width, height), [bands] the number of
    channels of its mode. *)
Record Image (P : Type) := {
  size : Z * Z;
  bands : Z;
  raster : P
}.
Arguments size {P} _.
Arguments bands {P} _.
Arguments raster {P} _.

(** A NumPy array. *)
Record ndarray (V : Type) := {
  shape : list Z;
  elements : V
}.
Arguments shape {V} _.
Arguments elements {V} _.

(** What PIL and Keras compute on pixel data, weights and scores.  The
    program never looks inside; [None] stands for an exception of the
    library. *)
Class Library := {
  pixels : Type;
  values : Type;
  (** [PIL.Image.open]: [None] when the bytes are not an image *)
  pil_open : UploadedFile -> option (Image pixels);
  (** the raster of [image.resize(size)] *)
  pil_resample : Image pixels -> Z * Z -> pixels;
  (** the elements of [img_to_array(image)] *)
  keras_pixel_values : Image pixels -> values;
  (** the elements of [preprocess_input(x)] *)
  keras_normalize : PreprocessFn -> ndarray values -> values;
  (** whether the ImageNet weights of the class can be loaded *)
  keras_weights_available : Architecture -> bool;
  (** [model.predict(x)] *)
  keras_predict : Handle -> ndarray values -> option (ndarray values);
  (** [imagenet_utils.decode_predictions(preds)]: per batch entry, the
      top classes *)
  keras_decode_predictions : ndarray values -> option (list (list Prediction))
}.

Section Program.

Context `{Library}.

(** *** Library calls *)

(** [image.resize(size)]: a copy of the requested size; PIL refuses a
    size with a component below 1. *)
Definition Image_resize (image : Image pixels) (size : Z * Z) : M Event (Image pixels) :=
  emit (Lib (PilResize size));;
  if (size.1 <? 1) || (size.2 <? 1) then raise ValueError
  else mret {| size := size; bands := bands image;
               raster := pil_resample image size |}.

(** [img_to_array(image)]: an array of shape (height, width, channels). *)
Definition img_to_array (image : Image pixels) : M Event (ndarray values) :=
  emit (Lib KerasImgToArray);;
  mret {| shape := [(size image).2; (size image).1; bands image];
          elements := keras_pixel_values image |}.

(** [np.expand_dims(a, axis)] for [0 <= axis <= a.ndim]: a new axis of
    length 1 at position [axis]. *)
Definition np_expand_dims (a : ndarray values) (axis : Z) : M Event (ndarray values) :=
  emit (Lib (NpExpandDims axis));;
  if (0 <=? axis) && (axis <=? Z.of_nat (length (shape a))) then
    mret {| shape := take (Z.to_nat axis) (shape a) ++ 1 :: drop (Z.to_nat axis) (shape a);
            elements := elements a |}
  else raise ValueError.

(** [imagenet_utils.preprocess_input] and [inception_v3.preprocess_input]
    change the elements and keep the shape.  The first works in "caffe"
    mode: it subtracts a mean from the channels 0, 1 and 2 of the last axis,
    and the index raises [IndexError] when that axis is shorter than 3.  The
    second works in "tf" mode, element by element, on any shape. *)
Definition call_preprocess (f : PreprocessFn) (x : ndarray values) : M Event (ndarray values) :=
  emit (Lib (KerasPreprocess f));;
  if preprocess_accepts f (shape x) then
    mret {| shape := shape x; elements := keras_normalize f x |}
  else raise IndexError.

(** [keras_application(weights="imagenet")]: a new model object; when the
    weights cannot be fetched, Keras raises a plain [Exception]. *)
Definition instantiate (a : Architecture) : M Event Handle :=
  emit (Lib (KerasInstantiate a));;
  if keras_weights_available a then
    w ← get;
    modify (set_next_ref S);;
    mret {| handle_arch := a; handle_ref := next_ref w |}
  else raise Exception.

Definition model_predict (model : Handle) (x : ndarray values) : M Event (ndarray values) :=
  emit (Lib (KerasPredict model));;
  of_option ValueError (keras_predict model x).

Definition decode_predictions (preds : ndarray values) : M Event (list (list Prediction)) :=
  emit (Lib KerasDecodePredictions);;
  of_option ValueError (keras_decode_predictions preds).

(** [@st.cache()]: the value stored for the arguments is returned as it
    is; otherwise the function runs and its value is stored. *)
Definition st_cache (key : KerasApplication) (body : M Event Handle) : M Event Handle :=
  w ← get;
  match cache w !! key with
  | Some value => mret value
  | None =>
      value ← body;
      modify (set_cache <[key := value]>);;
      mret value
  end.

(** *** The methods of [KerasApplication] *)

(** [to_input_shape]; the image is [None] when the caller left it out. *)
Definition to_input_shape (self : KerasApplication) (image : option (Image pixels))
    : M Event (Image pixels) :=
  image ← of_option AttributeError image;
  Image_resize image (input_shape self).

Definition get_model (self : KerasApplication) : M Event Handle :=
  st_cache self (instantiate (keras_application self)).

Definition preprocess_input (self : KerasApplication) (image : option (Image pixels))
    : M Event (ndarray values) :=
  image ← to_input_shape self image;
  image ← img_to_array image;
  image ← np_expand_dims image 0;
  image ← call_preprocess (preprocess_input_func self) image;
  mret image.

(** A progress callback acts on the user interface only. *)
Definition Callback : Type := string -> Z -> M UiEvent unit.

(** A call [report_progress_func(message, value)]. *)
Definition call_report (f : Callback) (message : string) (value : Z) : M Event unit :=
  fun w => let '(t, o) := f message value w in (Report message value :: map Ui t, o).

(** [print(message, value)], the default callback. *)
Definition print : Callback :=
  fun message value =>
    emit (Stdout (message ++ " " ++ NilZero.string_of_int (Z.to_int value))).

Definition get_top_predictions (self : KerasApplication) (image : option (Image pixels))
    (report_progress_func : Callback) : M Event (list Prediction) :=
  call_report report_progress_func
    ("Loading " ++ name self
     ++ " model ... (This might take from seconds to several minutes)") 10;;
  model ← get_model self;
  call_report report_progress_func "Processing image ... " 67;;
  image ← preprocess_input self image;
  call_report report_progress_func
    ("Classifying image with '" ++ name self ++ "'... ") 85;;
  predictions ← model_predict model image;
  top_predictions ← decode_predictions predictions;
  call_report report_progress_func "" 0;;
  of_option IndexError (top_predictions !! 0%nat).

End Program.

(** ** The Streamlit script *)

Definition newline : string := String (ascii_of_nat 10) EmptyString.

Definition unlines (ls : list string) : string :=
  String.concat newline ls.

(** The docstring of the module. *)
Definition __doc__ : string :=
  unlines [
    "# Image Classification";
    "";
    "This is an image classifier app that enables a user to";
    "";
    "- select a **classifier model**,";
    "- upload an image";
    "";
    "and get a prediction/ classification in return.";
    "";
    "This app is inspired by the [imageNet](https://github.com/iamatulsingh/imageNet-streamlit)";
    "application developed by awesome [Atul Kumar Singh](https://github.com/iamatulsingh)."
  ].

Definition get_resources_markdown (model : KerasApplication) : string :=
  unlines [
    "### Resources";
    "";
    "- [Keras](https://keras.io/)";
    "  - [Keras Apps](https://keras.io/applications)";
    "    - [" ++ name model ++ " Docs](" ++ url model ++ ")";
    "- Images";
    "  - [ImageNet](http://www.image-net.org/)";
    "  - [Awesome Images](https://github.com/heyalexej/awesome-images)";
    ""
  ].

Definition set_environ {E} : M E unit :=
  modify (set_environ_of <["TF_CPP_MIN_LOG_LEVEL" := "2"]>).

Module St.

Definition title (body : string) : M Event unit := emit (Ui (StTitle body)).
Definition info (body : string) : M Event unit := emit (Ui (StInfo body)).
Definition sidebar_info (body : string) : M Event unit := emit (Ui (StSidebarInfo body)).
Definition subheader (body : string) : M Event unit := emit (Ui (StSubheader body)).
Definition write (body : string) : M Event unit := emit (Ui (StWrite body)).
Definition altair_chart (chart : Alt.Chart) : M Event unit :=
  emit (Ui (StAltairChart chart)).

(** [st.sidebar.selectbox(label, options, format_func)]: the option at
    the index the user picked; Python's [None] when there is none. *)
Definition sidebar_selectbox (label : string) (options : list KerasApplication)
    (format_func : KerasApplication -> string) : M Event (option KerasApplication) :=
  emit (Ui (StSidebarSelectbox label (map format_func options)));;
  w ← get;
  mret (options !! selected w).

(** [st.file_uploader(label, type)]: the uploaded file, or [None]. *)
Definition file_uploader (label : string) (types : list string)
    : M Event (option UploadedFile) :=
  emit (Ui (StFileUploader label types));;
  w ← get;
  mret (uploaded w).

(** [st.empty()]: a new placeholder, empty. *)
Definition empty : M Event nat :=
  w ← get;
  let slot := length (placeholders w) in
  modify (set_placeholders (fun l => (l ++ [WEmpty])%list));;
  emit (Ui (StEmpty slot));;
  mret slot.

(** The methods of a placeholder. *)
Definition slot_empty (slot : nat) : M UiEvent unit :=
  modify (set_placeholders <[slot := WEmpty]>);;
  emit (SlotEmpty slot).

Definition slot_progress (slot : nat) (value : Z) : M UiEvent unit :=
  if (0 <=? value) && (value <=? 100) then
    modify (set_placeholders <[slot := WProgress value]>);;
    emit (SlotProgress slot value)
  else raise StreamlitAPIException.

Definition slot_markdown (slot : nat) (body : string) : M UiEvent unit :=
  modify (set_placeholders <[slot := WMarkdown body]>);;
  emit (SlotMarkdown slot body).

Section Image.

Context `{Library}.

(** [st.image(file)]: Streamlit decodes the upload with PIL before it
    renders it, and the exception of PIL for bytes that are no image comes
    out of this call. *)
Definition image (file : UploadedFile) : M Event unit :=
  match pil_open file with
  | Some _ => emit (Ui (StImage file))
  | None => raise OSError
  end.

End Image.

End St.

Section Script.

Context `{Library}.

Definition Image_open (file : UploadedFile) : M Event (Image pixels) :=
  emit (Lib PilOpen);;
  of_option OSError (pil_open file).

(** The closure [report_progress] of [main]. *)
Definition report_progress (progress progress_bar : nat) : Callback :=
  fun message value =>
    if value =? 0 then
      St.slot_empty progress_bar;;
      St.slot_empty progress
    else
      St.slot_progress progress_bar value;;
      St.slot_markdown progress message.

Definition main : M Event unit :=
  set_environ;;
  St.title "Image Classification with Keras and Tensorflow.";;
  St.info __doc__;;
  w ← get;
  selected_model ← St.sidebar_selectbox "Pick an image classifier model"
                     (registry w) name;
  selected_model ← of_option AttributeError selected_model;
  St.sidebar_info (get_resources_markdown selected_model);;
  image ← St.file_uploader "Upload a file for classification" IMAGE_TYPES;
  match image with
  | Some file =>
      St.image file;;
      image ← Image_open file;
      progress_bar ← St.empty;
      progress ← St.empty;
      predictions ← get_top_predictions selected_model (Some image)
                      (report_progress progress progress_bar);
      St.subheader "Main Prediction";;
      main_prediction ← of_option IndexError (to_main_prediction_string predictions);
      St.write main_prediction;;
      St.subheader "Alternative Predictions";;
      predictions_chart ← of_option ValueError (to_predictions_chart predictions);
      St.altair_chart predictions_chart
  | None => mret tt
  end.

End Script.

(** The world when the script starts. *)
Definition initial_world (selected : nat) (uploaded : option UploadedFile) : World :=
  {| environ := ∅; registry := KERAS_APPLICATIONS; cache := ∅; next_ref := 0;
     placeholders := []; selected := selected; uploaded := uploaded |}.

(** The predictions [("n01", "cat", 0.87), ("n02", "dog", 0.05)]. *)
Definition example_predictions : list Prediction :=
  [("n01", "cat", Float.of_ratio 87 100); ("n02", "dog", Float.of_ratio 5 100)].

(** A library for examples: rasters without content, every upload a
    640 x 480 RGB image, a model that answers every image with these two
    classes. *)
Definition example_library : Library := {|
  pixels := unit;
  values := unit;
  pil_open := fun _ => Some {| size := (640, 480); bands := 3; raster := tt |};
  pil_resample := fun _ _ => tt;
  keras_pixel_values := fun _ => tt;
  keras_normalize := fun _ _ => tt;
  keras_weights_available := fun _ => true;
  keras_predict := fun _ _ => Some {| shape := [1; 1000]; elements := tt |};
  keras_decode_predictions := fun _ => Some [example_predictions]
|}.

(** ** Vocabulary of the properties *)

(** The rows of the two fields the chart draws: the field of the y channel
    (the class label) and the field of the x channel (the probability). *)
Definition encoded_rows (chart : Alt.Chart) : list (list Pd.Cell) :=
  Pd.rows_of (Alt.data chart)
    [Alt.ch_field (Alt.encoding_y chart); Alt.ch_field (Alt.encoding_x chart)].

(** The probability the chart shows for a prediction: rounded to two
    decimals, then times 100. *)
Definition chart_probability (p : float) : float :=
  Float.mul (Np.round p 2) (Float.of_Z 100).

(** The probability as the specification words it: scaled to percent, the
    percentage rounded to two decimals. *)
Definition chart_probability_spec (p : float) : float :=
  Np.round (Float.mul p (Float.of_Z 100)) 2.

(** [n] is an integer nearest to [m * 2^e]: the distance is at most one
    half, stated over the integers by scaling with the denominator. *)
Definition nearest_integer (n : Z) (m : positive) (e : Z) : Prop :=
  2 * Z.abs (n * 2 ^ Z.max 0 (- e) - Z.pos m * 2 ^ Z.max 0 e) <= 2 ^ Z.max 0 (- e).

(** Whether a preprocessing function takes an image of so many bands: the
    ImageNet one needs three or more. *)
Definition takes_bands (f : PreprocessFn) (bands : Z) : bool :=
  match f with
  | imagenet_utils_preprocess_input => 3 <=? bands
  | inception_v3_preprocess_input => true
  end.

(** The calls of the progress callback in a trace, in order. *)
Definition reports (t : list Event) : list (string * Z) :=
  omap (fun ev => match ev with Report m v => Some (m, v) | _ => None end) t.

(** The library calls in a trace, in order. *)
Definition lib_calls (t : list Event) : list LibCall :=
  omap (fun ev => match ev with Lib c => Some c | _ => None end) t.

(** Events of a classification: a progress report or a library call other
    than decoding the upload. *)
Definition is_classification_event (ev : Event) : bool :=
  match ev with
  | Report _ _ => true
  | Lib PilOpen => false
  | Lib _ => true
  | Ui _ => false
  end.

(** Events that render a prediction. *)
Definition is_prediction_output (ev : Event) : bool :=
  match ev with
  | Ui (StSubheader _) | Ui (StWrite _) | Ui (StAltairChart _) => true
  | _ => false
  end.

(** The frame inside the chart: the identifiers and the labels as given,
    the probabilities rounded and scaled. *)
Definition chart_frame (predictions : list Prediction) : Pd.DataFrame :=
  {| Pd.df_columns := ["id"; "prediction"; "probability"];
     Pd.df_data :=
       <["probability" := Pd.FloatSeries (map (fun p => chart_probability p.2) predictions)]>
       (<["probability" := Pd.FloatSeries (map snd predictions)]>
       (<["prediction" := Pd.ObjectSeries (map (fun p => p.1.2) predictions)]>
       (<["id" := Pd.ObjectSeries (map (fun p => p.1.1) predictions)]> ∅))) |}.

Section Runs.

Context `{Library}.

(** The four library calls of [preprocess_input], in order. *)
Definition preprocess_trace (self : KerasApplication) : list Event :=
  [Lib (PilResize (input_shape self)); Lib KerasImgToArray; Lib (NpExpandDims 0);
   Lib (KerasPreprocess (preprocess_input_func self))].

(** The array [preprocess_input] returns for an image. *)
Definition preprocessed (self : KerasApplication) (image : Image pixels) : ndarray values :=
  let resized := {| size := input_shape self; bands := bands image;
                    raster := pil_resample image (input_shape self) |} in
  let array := {| shape := [(input_shape self).2; (input_shape self).1; bands image];
                  elements := keras_pixel_values resized |} in
  let batch := {| shape := 1 :: shape array; elements := elements array |} in
  {| shape := shape batch;
     elements := keras_normalize (preprocess_input_func self) batch |}.

(** The worlds a process reaches: by calls of [get_model], by runs of the
    script, and by the user changing a widget, which starts the script
    again. *)
Inductive later : World -> World -> Prop :=
| later_refl w : later w w
| later_get_model w w' self :
    later w w' -> later w (world_of (get_model self w'))
| later_main w w' :
    later w w' -> later w (world_of (main w'))
| later_rerun w w' selected uploaded :
    later w w' -> later w (rerun selected uploaded w').

End Runs.

(** [w'] has the registry of [w] and at least the cached models of [w]. *)
Definition extends (w w' : World) : Prop :=
  registry w' = registry w /\ cache w ⊆ cache w'.

(** Every run of [m] leaves the registry and the cached models in place. *)
Definition preserves {E A} (m : M E A) : Prop :=
  forall w, extends w (world_of (m w)).

(** Values for concrete runs. *)
Definition example_application : KerasApplication :=
  KerasApplication_new "ResNet50" ResNet50 None None
    (Some "https://keras.io/applications/#resnet").

Definition example_image : Image (@pixels example_library) :=
  {| size := (640, 480); bands := 3; raster := tt |}.



(** A world with the two placeholders of the script. *)
Definition example_world : World :=
  set_placeholders (fun _ => [WEmpty; WEmpty]) (initial_world 0 (Some [])).

(** ** The rest of the module *)

Section LoadImage.

Context `{Library}.

(** What [keras.preprocessing.image.load_img] reads from a path, in RGB
    mode ([None]: no such image), and the raster of its resize, which
    interpolates by nearest neighbour. *)
Variable keras_open_rgb : string -> option (Image pixels).
Variable pil_resample_nearest : Image pixels -> Z * Z -> pixels.

(** [load_img(path, target_size=...)]: [target_size] is (height, width);
    the image is resized to (width, height) = (target_size[1],
    target_size[0]) unless it has that size already. *)
Definition load_img (path : string) (target_size : option (Z * Z)) : M Event (Image pixels) :=
  emit (Lib PilOpen);;
  img ← of_option OSError (keras_open_rgb path);
  match target_size with
  | None => mret img
  | Some target_size =>
      let width_height_tuple := (target_size.2, target_size.1) in
      if decide (size img = width_height_tuple) then mret img
      else
        emit (Lib (PilResize width_height_tuple));;
        if (width_height_tuple.1 <? 1) || (width_height_tuple.2 <? 1) then raise ValueError
        else mret {| size := width_height_tuple; bands := bands img;
                     raster := pil_resample_nearest img width_height_tuple |}
  end.

(** [KerasApplication.load_image]. *)
Definition load_image (self : KerasApplication) (image_path : string) : M Event (Image pixels) :=
  load_img image_path (Some (input_shape self)).

End LoadImage.

(** ** Vocabulary of further properties *)

(** The four checkpoints of [get_top_predictions]: message and value. *)
Definition checkpoints (self : KerasApplication) : list (string * Z) :=
  [("Loading " ++ name self
    ++ " model ... (This might take from seconds to several minutes)", 10);
   ("Processing image ... ", 67);
   ("Classifying image with '" ++ name self ++ "'... ", 85);
   ("", 0)].

(** A computation whose runs report the progress [l] when they return and
    a prefix of [l] when they raise. *)
Definition reports_within {A} (l : list (string * Z)) (m : M Event A) : Prop :=
  forall w,
    reports (trace_of (m w)) `prefix_of` l /\
    (completed (m w) = true -> reports (trace_of (m w)) = l).

(** Every run of [m] takes a world to one related by [R]. *)
Definition keeps {E A} (R : relation World) (m : M E A) : Prop :=
  forall w, R w (world_of (m w)).

(** The store holds, for a profile, a model of the class of that profile,
    made before now; two profiles never hold the same object. *)
Definition cache_sound (w : World) : Prop :=
  (forall self model,
     cache w !! self = Some model ->
     handle_arch model = keras_application self /\ (handle_ref model < next_ref w)%nat) /\
  (forall self1 self2 model1 model2,
     cache w !! self1 = Some model1 -> cache w !! self2 = Some model2 ->
     handle_ref model1 = handle_ref model2 -> self1 = self2).

(** The world keeps [os.environ]. *)
Definition same_environ (w w' : World) : Prop := environ w' = environ w.

(** The world keeps object identities apart: a sound store stays sound. *)
Definition sound_after (w w' : World) : Prop := cache_sound w -> cache_sound w'.

(** What the script renders before it looks at the upload. *)
Definition page_head (w : World) (model : KerasApplication) : list Event :=
  [Ui (StTitle "Image Classification with Keras and Tensorflow.");
   Ui (StInfo __doc__);
   Ui (StSidebarSelectbox "Pick an image classifier model" (map name (registry w)));
   Ui (StSidebarInfo (get_resources_markdown model));
   Ui (StFileUploader "Upload a file for classification" IMAGE_TYPES)].

(** Libraries for concrete runs: one without the weights, one that cannot
    decode the upload, one whose decoder returns an empty list. *)
Definition offline_library : Library := {|
  pixels := unit;
  values := unit;
  pil_open := fun _ => Some {| size := (640, 480); bands := 3; raster := tt |};
  pil_resample := fun _ _ => tt;
  keras_pixel_values := fun _ => tt;
  keras_normalize := fun _ _ => tt;
  keras_weights_available := fun _ => false;
  keras_predict := fun _ _ => Some {| shape := [1; 1000]; elements := tt |};
  keras_decode_predictions := fun _ => Some [example_predictions]
|}.

Definition undecodable_library : Library := {|
  pixels := unit;
  values := unit;
  pil_open := fun _ => None;
  pil_resample := fun _ _ => tt;
  keras_pixel_values := fun _ => tt;
  keras_normalize := fun _ _ => tt;
  keras_weights_available := fun _ => true;
  keras_predict := fun _ _ => Some {| shape := [1; 1000]; elements := tt |};
  keras_decode_predictions := fun _ => Some [example_predictions]
|}.

Definition empty_top_library : Library := {|
  pixels := unit;
  values := unit;
  pil_open := fun _ => Some {| size := (640, 480); bands := 3; raster := tt |};
  pil_resample := fun _ _ => tt;
  keras_pixel_values := fun _ => tt;
  keras_normalize := fun _ _ => tt;
  keras_weights_available := fun _ => true;
  keras_predict := fun _ _ => Some {| shape := [1; 1000]; elements := tt |};
  keras_decode_predictions := fun _ => Some [[]]
|}.

(** A profile that is not square, and a file system with one image. *)
Definition wide_application : KerasApplication :=
  KerasApplication_new "Wide" ResNet50 (Some (320, 200)) None None.

Definition example_files (path : string) : option (Image (@pixels example_library)) :=
  if decide (path = "cat.jpg") then Some example_image else None.

(** * Properties *)

(** ** Floats *)

(** The floats built by [Float.of_ratio] are the floats of the decimal
    literals, and the operations agree with the hardware on them. *)
Example literal_0_87 : Prim2SF 0.87%float = Float.of_ratio 87 100.
Proof. vm_compute. reflexivity. Qed.

Example literal_0_05 : Prim2SF 0.05%float = Float.of_ratio 5 100.
Proof. vm_compute. reflexivity. Qed.

Example literal_0_8765 : Prim2SF 0.8765%float = Float.of_ratio 8765 10000.
Proof. vm_compute. reflexivity. Qed.

Example product_0_87 :
  Float.mul (Float.of_ratio 87 100) (Float.of_Z 100) = Prim2SF (0.87 * 100)%float /\
  Float.mul (Float.of_ratio 87 100) (Float.of_Z 100) = Float.of_Z 87.
Proof. split; vm_compute; reflexivity. Qed.

(** Rounding to two decimals first leaves the noise of the multiplication
    in the result: 0.07 gives 7.000000000000001. *)
Example chart_probability_0_07 :
  chart_probability (Float.of_ratio 7 100) = Prim2SF 7.000000000000001%float /\
  chart_probability (Float.of_ratio 7 100) <> Float.of_Z 7.
Proof. split; [vm_compute; reflexivity|vm_compute; discriminate]. Qed.

Example format_0f_examples :
  Float.format_0f (Float.of_ratio 3 2) = "2" /\
  Float.format_0f (Float.of_ratio 1 2) = "0" /\
  Float.format_0f (Float.of_ratio (-3) 10) = "-0" /\
  Float.format_0f (Float.of_ratio 8765 100) = "88".
Proof. repeat split; vm_compute; reflexivity. Qed.

Example capitalize_examples :
  Str.capitalize "cat" = "Cat" /\ Str.capitalize "Egyptian_Cat" = "Egyptian_cat".
Proof. split; reflexivity. Qed.

(** ** The chart *)

Lemma zip_columns_two {A} (f1 f2 : A -> Pd.Cell) (l : list A) :
  zip_with cons (map f1 l) (map (fun x => [f2 x]) l) = map (fun x => [f1 x; f2 x]) l.
Proof.
  induction l as [|x l IH]; [reflexivity|].
  simpl. by rewrite IH.
Qed.

Lemma zip_columns_three {A} (f1 f2 f3 : A -> Pd.Cell) (l : list A) :
  zip_with cons (map f1 l) (zip_with cons (map f2 l) (map (fun x => [f3 x]) l))
  = map (fun x => [f1 x; f2 x; f3 x]) l.
Proof.
  induction l as [|x l IH]; [reflexivity|].
  simpl. by rewrite IH.
Qed.

Lemma to_predictions_chart_data (predictions : list Prediction) :
  exists chart,
    to_predictions_chart predictions = Some chart /\
    Alt.data chart = chart_frame predictions /\
    Alt.mark chart = Alt.mark_bar /\
    Alt.encoding_x chart =
      {| Alt.ch_field := "probability"; Alt.ch_type := None; Alt.ch_sort := None |} /\
    Alt.encoding_y chart =
      {| Alt.ch_field := "prediction"; Alt.ch_type := Some Alt.Nominal;
         Alt.ch_sort := Some {| Alt.sort_field := "probability";
                                Alt.sort_order := Alt.descending |} |}.
Proof.
  unfold to_predictions_chart, DataFrame_of_predictions, Pd.getitem. simpl.
  rewrite lookup_insert_eq. simpl.
  eexists. split; [reflexivity|]. simpl. split; [|done].
  unfold chart_frame, Pd.setitem. simpl.
  f_equal. f_equal. f_equal. rewrite !map_map. reflexivity.
Qed.

Lemma chart_frame_rows (predictions : list Prediction) :
  Pd.rows (chart_frame predictions) =
  map (fun p => [Pd.CStr p.1.1; Pd.CStr p.1.2; Pd.CFloat (chart_probability p.2)])
      predictions.
Proof.
  unfold Pd.rows, Pd.rows_of, Pd.getitem, chart_frame. simpl.
  rewrite lookup_insert_eq.
  rewrite !(lookup_insert_ne _ "probability") by done.
  rewrite lookup_insert_eq.
  rewrite (lookup_insert_ne _ "prediction") by done.
  rewrite lookup_insert_eq. simpl.
  rewrite !map_map. apply (zip_columns_three (fun p => Pd.CStr p.1.1)).
Qed.

Lemma chart_frame_label_probability (predictions : list Prediction) :
  Pd.rows_of (chart_frame predictions) ["prediction"; "probability"] =
  map (fun p => [Pd.CStr p.1.2; Pd.CFloat (chart_probability p.2)]) predictions.
Proof.
  unfold Pd.rows_of, Pd.getitem, chart_frame. simpl.
  rewrite lookup_insert_eq.
  rewrite !(lookup_insert_ne _ "probability") by done.
  rewrite lookup_insert_eq. simpl.
  rewrite !map_map. apply (zip_columns_two (fun p => Pd.CStr p.1.2)).
Qed.

(** C1 as worded does not hold: the chart of a single prediction with
    probability 0.8765 shows 88.0, whereas the probability scaled to percent
    and then rounded to two decimals is 87.65. *)
Lemma C1_chart_percent_not_two_decimals :
  let predictions := [("n01", "cat", Float.of_ratio 8765 10000)] in
  exists chart,
    to_predictions_chart predictions = Some chart /\
    encoded_rows chart = [[Pd.CStr "cat"; Pd.CFloat (Float.of_Z 88)]] /\
    chart_probability_spec (Float.of_ratio 8765 10000) = Float.of_ratio 8765 100 /\
    encoded_rows chart
    <> map (fun p => [Pd.CStr p.1.2; Pd.CFloat (chart_probability_spec p.2)]) predictions.
Proof.
  eexists. split; [vm_compute; reflexivity|].
  split; [vm_compute; reflexivity|].
  split; [vm_compute; reflexivity|].
  vm_compute. discriminate.
Qed.

(** C1, amended: for every prediction list [to_predictions_chart] returns a
    chart over a frame whose rows, in the two fields the chart draws, are the
    pairs of the class label and the probability rounded to two decimals and
    then multiplied by 100; on [("n01", "cat", 0.87); ("n02", "dog", 0.05)]
    these are two rows with probabilities 87.0 and 5.0. *)
Theorem C1_chart_rows_rounded_then_scaled :
  (forall predictions : list Prediction,
     exists chart,
       to_predictions_chart predictions = Some chart /\
       encoded_rows chart
       = map (fun p => [Pd.CStr p.1.2;
                        Pd.CFloat (Float.mul (Np.round p.2 2) (Float.of_Z 100))])
             predictions) /\
  (exists chart,
     to_predictions_chart
       [("n01", "cat", Float.of_ratio 87 100); ("n02", "dog", Float.of_ratio 5 100)]
     = Some chart /\
     encoded_rows chart
     = [[Pd.CStr "cat"; Pd.CFloat (Float.of_Z 87)];
        [Pd.CStr "dog"; Pd.CFloat (Float.of_Z 5)]]).
Proof.
  split.
  - intros predictions.
    destruct (to_predictions_chart_data predictions)
      as (chart & Hchart & Hdata & _ & Hx & Hy).
    exists chart. split; [exact Hchart|].
    unfold encoded_rows. rewrite Hdata, Hx, Hy.
    apply chart_frame_label_probability.
  - eexists. split; vm_compute; reflexivity.
Qed.

(** C9: the rows of the frame under the chart follow the input list entry
    by entry, whatever its order; the descending sort by probability is a
    directive on the y channel of the encoding only. *)
Theorem C9_chart_rows_keep_input_order :
  forall predictions : list Prediction,
    exists chart,
      to_predictions_chart predictions = Some chart /\
      Pd.rows (Alt.data chart)
      = map (fun p => [Pd.CStr p.1.1; Pd.CStr p.1.2; Pd.CFloat (chart_probability p.2)])
            predictions /\
      (forall i : nat,
         Pd.rows (Alt.data chart) !! i
         = (fun p => [Pd.CStr p.1.1; Pd.CStr p.1.2; Pd.CFloat (chart_probability p.2)])
             <$> predictions !! i) /\
      Alt.ch_sort (Alt.encoding_y chart)
      = Some {| Alt.sort_field := "probability"; Alt.sort_order := Alt.descending |} /\
      Alt.ch_sort (Alt.encoding_x chart) = None.
Proof.
  intros predictions.
  destruct (to_predictions_chart_data predictions)
    as (chart & Hchart & Hdata & _ & Hx & Hy).
  exists chart. rewrite Hdata, Hx, Hy, chart_frame_rows.
  repeat split; try done.
  intros i. apply list_lookup_fmap.
Qed.

(** An input in ascending order stays in ascending order in the frame. *)
Example chart_rows_of_ascending_input :
  Pd.rows ∘ Alt.data
    <$> to_predictions_chart
          [("n02", "dog", Float.of_ratio 5 100); ("n01", "cat", Float.of_ratio 87 100)]
  = Some [[Pd.CStr "n02"; Pd.CStr "dog"; Pd.CFloat (Float.of_Z 5)];
          [Pd.CStr "n01"; Pd.CStr "cat"; Pd.CFloat (Float.of_Z 87)]].
Proof. vm_compute. reflexivity. Qed.

(** ** The summary sentence *)

Lemma round_half_even_nearest (m : positive) (e : Z) :
  nearest_integer (Float.round_half_even m e) m e.
Proof.
  unfold nearest_integer, Float.round_half_even.
  destruct (Z.leb_spec 0 e) as [He|He].
  - rewrite (Z.max_l 0 (- e)), (Z.max_r 0 e) by lia.
    rewrite Z.pow_0_r. replace (_ - _) with 0 by lia. simpl. lia.
  - rewrite (Z.max_r 0 (- e)), (Z.max_l 0 e) by lia.
    rewrite Z.pow_0_r.
    assert (Hd : 0 < 2 ^ (- e)) by (apply Z.pow_pos_nonneg; lia).
    set (d := 2 ^ (- e)) in *.
    pose proof (Z.div_mod (Z.pos m) d ltac:(lia)) as Hdiv.
    pose proof (Z.mod_pos_bound (Z.pos m) d Hd) as Hmod.
    set (q := Z.pos m / d) in *. set (r := Z.pos m mod d) in *.
    destruct (Z.compare_spec (2 * r) d) as [Heq|Hlt|Hgt];
      [destruct (Z.even q)| |]; nia.
Qed.

(** C2: for every non-empty prediction list the sentence names the label
    of the first entry, capitalized, and shows its probability times 100
    formatted without decimals, which is an integer nearest to that
    percentage; on [("n01", "cat", 0.87); ("n02", "dog", 0.05)] the sentence
    contains "Cat" and "87%". *)
Theorem C2_summary_names_top_class :
  (forall predictions : list Prediction,
     predictions <> [] ->
     exists id label p rest,
       predictions = (id, label, p) :: rest /\
       to_main_prediction_string predictions
       = Some ("It's a **" ++ Str.capitalize label ++ "** with probability "
               ++ Float.format_0f (Float.mul p (Float.of_Z 100)) ++ "%") /\
       match Float.mul p (Float.of_Z 100) with
       | S754_finite s m e =>
           exists n,
             nearest_integer n m e /\
             Float.format_0f (Float.mul p (Float.of_Z 100))
             = (if s then "-" else "") ++ NilZero.string_of_uint (N.to_uint (Z.to_N n))
       | _ => True
       end) /\
  (exists sentence,
     to_main_prediction_string
       [("n01", "cat", Float.of_ratio 87 100); ("n02", "dog", Float.of_ratio 5 100)]
     = Some sentence /\
     Str.contains "Cat" sentence /\ Str.contains "87%" sentence).
Proof.
  split.
  - intros [|[[id label] p] rest] Hne; [done|].
    exists id, label, p, rest. split; [reflexivity|]. split; [reflexivity|].
    destruct (Float.mul p (Float.of_Z 100)) as [| | |s m e]; try exact I.
    exists (Float.round_half_even m e). split; [|reflexivity].
    apply round_half_even_nearest.
  - exists "It's a **Cat** with probability 87%".
    split; [vm_compute; reflexivity|]. split.
    + exists "It's a **", "** with probability 87%". reflexivity.
    + exists "It's a **Cat** with probability ", "". reflexivity.
Qed.

Lemma C2_summary_names_top_class_witness :
  example_predictions <> [] /\
  exists id label p rest,
    example_predictions = (id, label, p) :: rest /\
    to_main_prediction_string example_predictions
    = Some ("It's a **" ++ Str.capitalize label ++ "** with probability "
            ++ Float.format_0f (Float.mul p (Float.of_Z 100)) ++ "%") /\
    match Float.mul p (Float.of_Z 100) with
    | S754_finite s m e =>
        exists n,
          nearest_integer n m e /\
          Float.format_0f (Float.mul p (Float.of_Z 100))
          = (if s then "-" else "") ++ NilZero.string_of_uint (N.to_uint (Z.to_N n))
    | _ => True
    end.
Proof.
  assert (Hne : example_predictions <> []) by discriminate.
  split; [exact Hne|].
  exact (proj1 C2_summary_names_top_class example_predictions Hne).
Defined.

(** ** The registry *)

Lemma registry_names :
  map name KERAS_APPLICATIONS
  = ["ResNet50"; "VGG16"; "VGG19"; "InceptionV3"; "Xception"; "MobileNetV2"].
Proof. reflexivity. Qed.

Lemma registry_shapes_positive :
  Forall (fun a => 0 < (input_shape a).1 /\ 0 < (input_shape a).2) KERAS_APPLICATIONS.
Proof. repeat constructor. Qed.

(** C10: six profiles in the order ResNet50, VGG16, VGG19, InceptionV3,
    Xception, MobileNetV2; InceptionV3 and Xception have input shape
    (299, 299) and the Inception preprocessing function, the other four the
    defaults of the class, (224, 224) and the ImageNet preprocessing
    function. *)
Theorem C10_registry_contents :
  map (fun a => (name a, keras_application a)) KERAS_APPLICATIONS
  = [("ResNet50", ResNet50); ("VGG16", VGG16); ("VGG19", VGG19);
     ("InceptionV3", InceptionV3); ("Xception", Xception);
     ("MobileNetV2", MobileNetV2)] /\
  map (fun a => (input_shape a, preprocess_input_func a)) KERAS_APPLICATIONS
  = [(default_input_shape, default_preprocess_input_func);
     (default_input_shape, default_preprocess_input_func);
     (default_input_shape, default_preprocess_input_func);
     ((299, 299), inception_v3_preprocess_input);
     ((299, 299), inception_v3_preprocess_input);
     (default_input_shape, default_preprocess_input_func)] /\
  default_input_shape = (224, 224) /\
  default_preprocess_input_func = imagenet_utils_preprocess_input.
Proof. repeat split. Qed.

(** ** Runs of the monad *)




Section ProgramFacts.

Context `{Library}.


Lemma takes_bands_iff (f : PreprocessFn) (b : Z) :
  takes_bands f b = true <-> f = inception_v3_preprocess_input \/ 3 <= b.
Proof.
  destruct f; simpl.
  - rewrite Z.leb_le. split; [by right|]. by intros [|].
  - split; [by left|done].
Qed.

(** The three ways a run of [preprocess_input] on an image ends. *)
Lemma preprocess_input_run self (image : Image pixels) w :
  preprocess_input self (Some image) w
  = if ((input_shape self).1 <? 1) || ((input_shape self).2 <? 1)
    then ([Lib (PilResize (input_shape self))], Raised ValueError w)
    else if takes_bands (preprocess_input_func self) (bands image)
    then (preprocess_trace self, Ok (preprocessed self image) w)
    else (preprocess_trace self, Raised IndexError w).
Proof.
  unfold preprocess_input, to_input_shape, Image_resize, call_preprocess,
    preprocess_trace, preprocessed.
  unfold mbind, M_bind, bind, mret, M_ret, ret, emit, raise. simpl.
  destruct (_ || _); [reflexivity|]. simpl.
  destruct (preprocess_input_func self); simpl;
    [destruct (3 <=? bands image)|]; reflexivity.
Qed.

Lemma preprocess_input_positive self (image : Image pixels) w :
  0 < (input_shape self).1 -> 0 < (input_shape self).2 ->
  preprocess_input_func self = inception_v3_preprocess_input \/ 3 <= bands image ->
  preprocess_input self (Some image) w
  = (preprocess_trace self, Ok (preprocessed self image) w).
Proof.
  intros Hw Hh Hbands. rewrite preprocess_input_run.
  destruct (Z.ltb_spec (input_shape self).1 1); [lia|].
  destruct (Z.ltb_spec (input_shape self).2 1); [lia|]. simpl.
  apply takes_bands_iff in Hbands. by rewrite Hbands.
Qed.


End ProgramFacts.

Lemma reports_app (t1 t2 : list Event) :
  reports (t1 ++ t2)%list = (reports t1 ++ reports t2)%list.
Proof. apply omap_app. Qed.

Lemma reports_Ui (u : list UiEvent) : reports (map Ui u) = [].
Proof. induction u as [|e u IH]; [reflexivity|exact IH]. Qed.


Section ModelCache.

Context `{Library}.

Lemma get_model_hit self w model :
  cache w !! self = Some model -> get_model self w = ([], Ok model w).
Proof.
  intros Hhit. unfold get_model, st_cache.
  unfold mbind, M_bind, bind, get. simpl. rewrite Hhit. reflexivity.
Qed.

Lemma get_model_miss self w :
  cache w !! self = None ->
  get_model self w
  = let model := {| handle_arch := keras_application self; handle_ref := next_ref w |} in
    ([Lib (KerasInstantiate (keras_application self))],
     if keras_weights_available (keras_application self)
     then Ok model (set_cache <[self := model]> (set_next_ref S w))
     else Raised Exception w).
Proof.
  intros Hmiss. unfold get_model, st_cache, instantiate.
  unfold mbind, M_bind, bind, get, emit. simpl. rewrite Hmiss. simpl.
  destruct (keras_weights_available _); reflexivity.
Qed.

Lemma get_model_Ok self w t model w' :
  get_model self w = (t, Ok model w') ->
  cache w' !! self = Some model /\
  exists load, t = map Lib load /\
               (load = [] \/ load = [KerasInstantiate (keras_application self)]).
Proof.
  destruct (cache w !! self) as [m|] eqn:Hc.
  - rewrite (get_model_hit _ _ _ Hc). intros [= <- <- <-].
    split; [exact Hc|]. exists []. auto.
  - rewrite (get_model_miss _ _ Hc). simpl.
    destruct (keras_weights_available _); [|discriminate].
    intros [= <- <- <-]. split.
    + simpl. apply lookup_insert_eq.
    + exists [KerasInstantiate (keras_application self)]. auto.
Qed.

(** A call of [get_model], for any profile, keeps what the store holds. *)
Lemma get_model_keeps_cache a w self model :
  cache w !! self = Some model ->
  cache (world_of (get_model a w)) !! self = Some model.
Proof.
  intros Hc. destruct (cache w !! a) as [m|] eqn:Ha.
  - rewrite (get_model_hit _ _ _ Ha). exact Hc.
  - rewrite (get_model_miss _ _ Ha). unfold world_of. simpl.
    destruct (keras_weights_available _); simpl; [|exact Hc].
    rewrite lookup_insert_ne; [exact Hc|]. intros ->. congruence.
Qed.

End ModelCache.

(** ** What a run leaves in place *)

#[global] Instance extends_preorder : PreOrder extends.
Proof.
  split.
  - intros w. by split.
  - intros w1 w2 w3 [Hr1 Hc1] [Hr2 Hc2]. split; [congruence|by etrans].
Qed.

Lemma preserves_ret {E A} (a : A) : preserves (mret a : M E A).
Proof. intros w. reflexivity. Qed.

Lemma preserves_raise {E A} (e : Exn) : preserves (raise e : M E A).
Proof. intros w. reflexivity. Qed.

Lemma preserves_emit {E} (ev : E) : preserves (emit ev).
Proof. intros w. reflexivity. Qed.

Lemma preserves_get {E} : preserves (get : M E World).
Proof. intros w. reflexivity. Qed.

Lemma preserves_modify {E} (f : World -> World) :
  (forall w, extends w (f w)) -> preserves (modify f : M E unit).
Proof. intros Hf w. apply Hf. Qed.

Lemma preserves_bind {E A B} (m : M E A) (k : A -> M E B) :
  preserves m -> (forall a, preserves (k a)) -> preserves (m ≫= k).
Proof.
  intros Hm Hk w. specialize (Hm w).
  unfold mbind, M_bind, bind, world_of in *.
  destruct (m w) as [t [a w1|e w1]]; simpl in *; [|exact Hm].
  specialize (Hk a w1). unfold world_of in Hk.
  destruct (k a w1) as [t' o]. simpl in *. by etrans.
Qed.

Lemma preserves_of_option {E A} (e : Exn) (o : option A) :
  preserves (of_option e o : M E A).
Proof. destruct o; intros w; reflexivity. Qed.

Lemma extends_set_environ f w : extends w (set_environ_of f w).
Proof. by split. Qed.

Lemma extends_set_placeholders f w : extends w (set_placeholders f w).
Proof. by split. Qed.

Lemma extends_set_next_ref f w : extends w (set_next_ref f w).
Proof. by split. Qed.

Create HintDb preserves.
#[global] Hint Resolve preserves_ret preserves_raise preserves_emit preserves_get
  preserves_of_option extends_set_environ extends_set_placeholders
  extends_set_next_ref : preserves.

Ltac preserves_step :=
  lazymatch goal with
  | |- preserves (_ ≫= _) => apply preserves_bind; [|intros ?]
  | |- preserves (modify _) => apply preserves_modify; intros ?
  | |- preserves (match ?x with _ => _ end) => destruct x
  | |- _ => solve [eauto with preserves]
  end.

Ltac preserves_auto := repeat preserves_step.

Section Preservation.

Context `{Library}.

Lemma preserves_call_report (f : Callback) message value :
  preserves (f message value) -> preserves (call_report f message value).
Proof.
  intros Hf w. specialize (Hf w). unfold call_report, world_of in *.
  destruct (f message value w) as [t o]. exact Hf.
Qed.

Lemma preserves_get_model self : preserves (get_model self).
Proof.
  intros w. destruct (cache w !! self) as [m|] eqn:Hc.
  - rewrite (get_model_hit _ _ _ Hc). reflexivity.
  - rewrite (get_model_miss _ _ Hc). unfold world_of. simpl.
    destruct (keras_weights_available _); simpl; [|reflexivity].
    split; [reflexivity|]. simpl. by apply insert_subseteq.
Qed.

Lemma preserves_preprocess_input self image : preserves (preprocess_input self image).
Proof.
  unfold preprocess_input, to_input_shape, Image_resize, img_to_array,
    np_expand_dims, call_preprocess.
  preserves_auto.
Qed.

Lemma preserves_get_top_predictions self image (f : Callback) :
  (forall message value, preserves (f message value)) ->
  preserves (get_top_predictions self image f).
Proof.
  intros Hf. unfold get_top_predictions, model_predict, decode_predictions.
  pose proof (preserves_get_model self).
  pose proof (preserves_preprocess_input self).
  pose proof preserves_call_report.
  preserves_auto.
Qed.

Lemma preserves_report_progress progress progress_bar message value :
  preserves (report_progress progress progress_bar message value).
Proof.
  unfold report_progress, St.slot_empty, St.slot_progress, St.slot_markdown.
  preserves_auto.
Qed.

Lemma preserves_main : preserves main.
Proof.
  unfold main, set_environ, St.title, St.info, St.sidebar_selectbox, St.sidebar_info,
    St.file_uploader, St.image, Image_open, St.empty, St.subheader, St.write,
    St.altair_chart.
  pose proof preserves_get_top_predictions.
  pose proof preserves_report_progress.
  preserves_auto.
Qed.

End Preservation.

(** ** The lifetime of the process *)

Section Lifetime.

Context `{Library}.

Lemma later_cache w w' : later w w' -> cache w ⊆ cache w'.
Proof.
  induction 1 as [w|w w' self _ IH|w w' _ IH|w w' sel up _ IH].
  - reflexivity.
  - etrans; [exact IH|]. apply (preserves_get_model self w').
  - etrans; [exact IH|]. apply (preserves_main w').
  - exact IH.
Qed.

Lemma later_registry w w' :
  registry w = KERAS_APPLICATIONS -> later w w' -> registry w' = KERAS_APPLICATIONS.
Proof.
  intros Hw. induction 1 as [w|w w' self _ IH|w w' _ IH|w w' sel up _ IH].
  - exact Hw.
  - rewrite (proj1 (preserves_get_model self w')). by apply IH.
  - rewrite (proj1 (preserves_main w')). by apply IH.
  - reflexivity.
Qed.

(** Without the store, two instantiations give two different objects. *)
Lemma instantiate_fresh a w t1 model1 w1 t2 model2 w2 :
  instantiate a w = (t1, Ok model1 w1) ->
  instantiate a w1 = (t2, Ok model2 w2) ->
  handle_ref model1 <> handle_ref model2.
Proof.
  unfold instantiate, mbind, M_bind, bind, emit, get, modify, mret, M_ret, ret, raise.
  simpl. destruct (keras_weights_available a); [|discriminate].
  intros [= <- <- <-] [= <- <- <-]. simpl. lia.
Qed.

End Lifetime.

(** C7: once [get_model] has returned a model for a profile, every later
    call for that profile, directly after or in any world the process
    reaches afterwards (by further calls of [get_model], runs of the script
    or the user changing a widget), returns the same object (same identity),
    makes no library call and leaves the world as it is; the first call
    instantiates at most once. *)
Theorem C7_get_model_memoized :
  forall (lib : Library) (self : KerasApplication) (w : World) t model w1,
    get_model self w = (t, Ok model w1) ->
    get_model self w1 = ([], Ok model w1) /\
    (forall w2, later w1 w2 -> get_model self w2 = ([], Ok model w2)) /\
    (lib_calls t = [] \/ lib_calls t = [KerasInstantiate (keras_application self)]).
Proof.
  intros lib self w t model w1 Hrun.
  apply get_model_Ok in Hrun as (Hc & load & -> & Hload).
  split; [by apply get_model_hit|]. split.
  - intros w2 Hlater. apply get_model_hit.
    eapply lookup_weaken; [exact Hc|]. by apply later_cache.
  - destruct Hload as [-> | ->]; auto.
Qed.

(** ** The registry is well formed and read only *)

(** C6: the names of the registry are pairwise different, both components
    of every input shape are positive, the registry is a list of six
    profiles; a run of the script, whatever the user picked or uploaded and
    whatever the libraries answer, ends with the registry it started with,
    and so does every world the process reaches from one that holds the
    registry. *)
Theorem C6_registry_well_formed :
  NoDup (map name KERAS_APPLICATIONS) /\
  Forall (fun a => 0 < (input_shape a).1 /\ 0 < (input_shape a).2) KERAS_APPLICATIONS /\
  length KERAS_APPLICATIONS = 6%nat /\
  (forall (lib : Library) (w : World), registry (world_of (main w)) = registry w) /\
  (forall (lib : Library) (w w' : World),
     registry w = KERAS_APPLICATIONS -> later w w' -> registry w' = KERAS_APPLICATIONS).
Proof.
  split; [|split; [|split; [|split]]].
  - rewrite registry_names. apply (bool_decide_unpack _). vm_compute. exact I.
  - exact registry_shapes_positive.
  - reflexivity.
  - intros lib w. apply preserves_main.
  - intros lib w w'. apply later_registry.
Qed.

(** ** Preprocessing *)

Lemma registry_shapes_square :
  Forall (fun a => (input_shape a).1 = (input_shape a).2) KERAS_APPLICATIONS.
Proof. repeat constructor. Qed.



(** ** Classification *)

Section Classification.

Context `{Library}.


End Classification.


(** ** The upload gate *)

(** C8: when no file is uploaded, a run of the script makes no progress
    report and no library call and renders neither a subheader, a sentence
    nor a chart; when the select box holds a profile the run returns
    normally after rendering the title, the introduction, the select box,
    the resources and the upload control, and only [os.environ] has
    changed. *)
Theorem C8_no_upload_no_classification :
  forall (lib : Library) (w : World),
    uploaded w = None ->
    Forall (fun ev => is_classification_event ev = false /\
                      is_prediction_output ev = false) (trace_of (main w)) /\
    forall model,
      registry w !! selected w = Some model ->
      main w
      = ([Ui (StTitle "Image Classification with Keras and Tensorflow.");
          Ui (StInfo __doc__);
          Ui (StSidebarSelectbox "Pick an image classifier model" (map name (registry w)));
          Ui (StSidebarInfo (get_resources_markdown model));
          Ui (StFileUploader "Upload a file for classification" IMAGE_TYPES)],
         Ok tt (set_environ_of <["TF_CPP_MIN_LOG_LEVEL" := "2"]> w)).
Proof.
  intros lib w Hup.
  unfold main, set_environ, St.title, St.info, St.sidebar_selectbox, St.sidebar_info,
    St.file_uploader.
  unfold mbind, M_bind, bind, mret, M_ret, emit, get, modify, trace_of. simpl.
  destruct (registry w !! selected w) as [model|]; simpl; unfold ret, raise; simpl.
  - rewrite Hup. simpl. split; [repeat constructor|]. by intros ? [= <-].
  - split; [repeat constructor|]. discriminate.
Qed.

(** ** The properties at a concrete run *)



Lemma C7_get_model_memoized_witness :
  exists model w1,
    @get_model example_library example_application example_world
    = ([Lib (KerasInstantiate ResNet50)], Ok model w1) /\
    handle_ref model = 0%nat /\
    @get_model example_library example_application w1 = ([], Ok model w1) /\
    let w2 := world_of (@main example_library (rerun 3 None w1)) in
    @get_model example_library example_application w2 = ([], Ok model w2).
Proof.
  set (r := @get_model example_library example_application example_world).
  assert (Hrun : r = ([Lib (KerasInstantiate ResNet50)],
                      Ok {| handle_arch := ResNet50; handle_ref := 0 |} (world_of r)))
    by (vm_compute; reflexivity).
  exists {| handle_arch := ResNet50; handle_ref := 0 |}, (world_of r).
  split; [exact Hrun|]. split; [reflexivity|].
  pose proof (C7_get_model_memoized example_library example_application
                example_world _ _ _ Hrun) as (Hagain & Hlater & _).
  split; [exact Hagain|].
  exact (Hlater _ (@later_main example_library _ _
                     (@later_rerun example_library _ _ 3%nat None
                        (@later_refl example_library _)))).
Defined.

Lemma C6_registry_well_formed_witness :
  registry (initial_world 0 None) = KERAS_APPLICATIONS /\
  registry (world_of (@main example_library
                        (rerun 1 (Some []) (initial_world 0 None))))
  = KERAS_APPLICATIONS.
Proof.
  assert (Hw : registry (initial_world 0 None) = KERAS_APPLICATIONS) by reflexivity.
  split; [exact Hw|].
  exact (proj2 (proj2 (proj2 (proj2 C6_registry_well_formed))) example_library
           (initial_world 0 None) _ Hw
           (@later_main example_library _ _
              (@later_rerun example_library _ _ 1%nat (Some [])
                 (@later_refl example_library _)))).
Defined.

Lemma C8_no_upload_no_classification_witness :
  uploaded (initial_world 0 None) = None /\
  registry (initial_world 0 None) !! selected (initial_world 0 None)
  = Some example_application /\
  Forall (fun ev => is_classification_event ev = false /\
                    is_prediction_output ev = false)
         (trace_of (@main example_library (initial_world 0 None))) /\
  @main example_library (initial_world 0 None)
  = ([Ui (StTitle "Image Classification with Keras and Tensorflow.");
      Ui (StInfo __doc__);
      Ui (StSidebarSelectbox "Pick an image classifier model"
            ["ResNet50"; "VGG16"; "VGG19"; "InceptionV3"; "Xception"; "MobileNetV2"]);
      Ui (StSidebarInfo (get_resources_markdown example_application));
      Ui (StFileUploader "Upload a file for classification" IMAGE_TYPES)],
     Ok tt (set_environ_of <["TF_CPP_MIN_LOG_LEVEL" := "2"]> (initial_world 0 None))).
Proof.
  assert (Hup : uploaded (initial_world 0 None) = None) by reflexivity.
  assert (Hsel : registry (initial_world 0 None) !! selected (initial_world 0 None)
                 = Some example_application) by reflexivity.
  split; [exact Hup|]. split; [exact Hsel|].
  pose proof (C8_no_upload_no_classification example_library (initial_world 0 None) Hup)
    as [Hquiet Hrun].
  split; [exact Hquiet|]. exact (Hrun example_application Hsel).
Defined.

(** * Further properties *)

(** ** Traces of runs that raise *)

Lemma trace_bind {E A B} (m : M E A) (k : A -> M E B) w :
  trace_of ((m ≫= k) w)
  = (trace_of (m w)
     ++ match snd (m w) with
        | Ok a w' => trace_of (k a w')
        | Raised _ _ => []
        end)%list.
Proof.
  unfold mbind, M_bind, bind, trace_of.
  destruct (m w) as [t [a w'|e w']]; simpl.
  - by destruct (k a w').
  - by rewrite app_nil_r.
Qed.

Lemma completed_bind {E A B} (m : M E A) (k : A -> M E B) w :
  completed ((m ≫= k) w)
  = match snd (m w) with
    | Ok a w' => completed (k a w')
    | Raised _ _ => false
    end.
Proof.
  unfold mbind, M_bind, bind, completed.
  destruct (m w) as [t [a w'|e w']]; simpl; [|reflexivity].
  by destruct (k a w').
Qed.

Lemma reports_within_bind {A B} l1 l2 (m : M Event A) (k : A -> M Event B) :
  reports_within l1 m -> (forall a, reports_within l2 (k a)) ->
  reports_within (l1 ++ l2)%list (m ≫= k).
Proof.
  intros Hm Hk w. destruct (Hm w) as [Hpre Hall].
  rewrite trace_bind, completed_bind, reports_app.
  unfold completed in Hall.
  destruct (m w) as [t [a w'|e w']]; simpl in *.
  - rewrite (Hall eq_refl). destruct (Hk a w') as [Hpre' Hall']. split.
    + by apply prefix_app.
    + intros Hc. by rewrite (Hall' Hc).
  - rewrite app_nil_r. split; [|discriminate].
    by apply prefix_app_r.
Qed.

Lemma reports_within_silent {A} (m : M Event A) :
  (forall w, reports (trace_of (m w)) = []) -> reports_within [] m.
Proof. intros Hm w. rewrite Hm. split; [reflexivity|done]. Qed.

Section Checkpoints.

Context `{Library}.

Lemma reports_within_call_report (f : Callback) message value :
  reports_within [(message, value)] (call_report f message value).
Proof.
  intros w. unfold call_report, trace_of.
  destruct (f message value w) as [t o]. simpl.
  change (reports (Report message value :: map Ui t))
    with ((message, value) :: reports (map Ui t)).
  rewrite reports_Ui. split; [reflexivity|done].
Qed.

Lemma get_model_silent self w : reports (trace_of (get_model self w)) = [].
Proof.
  destruct (cache w !! self) as [m|] eqn:Hc.
  - by rewrite (get_model_hit _ _ _ Hc).
  - by rewrite (get_model_miss _ _ Hc).
Qed.

Lemma preprocess_input_silent self image w :
  reports (trace_of (preprocess_input self image w)) = [].
Proof.
  destruct image as [im|]; [|reflexivity].
  rewrite preprocess_input_run.
  destruct (_ || _); [reflexivity|].
  by destruct (takes_bands _ _).
Qed.

Lemma model_predict_silent model x w :
  reports (trace_of (model_predict model x w)) = [].
Proof.
  unfold model_predict, mbind, M_bind, bind, emit, trace_of. simpl.
  by destruct (keras_predict model x).
Qed.

Lemma decode_predictions_silent preds w :
  reports (trace_of (decode_predictions preds w)) = [].
Proof.
  unfold decode_predictions, mbind, M_bind, bind, emit, trace_of. simpl.
  by destruct (keras_decode_predictions preds).
Qed.

Lemma of_option_silent {A} e (o : option A) w :
  reports (trace_of (of_option e o w : list Event * Outcome A)) = [].
Proof. by destruct o. Qed.

(** X1: whatever the callback and the libraries do, also when one of them
    raises, the progress reported by a run of [get_top_predictions] is an
    initial part of the four checkpoints, in their order. *)
Theorem get_top_predictions_reports_prefix :
  forall self image (f : Callback) w,
    reports (trace_of (get_top_predictions self image f w)) `prefix_of` checkpoints self.
Proof.
  intros self image f w.
  assert (Hwithin : reports_within (checkpoints self) (get_top_predictions self image f));
    [|by apply Hwithin].
  unfold get_top_predictions.
  apply (reports_within_bind [_] [_; _; _]); [apply reports_within_call_report|intros _].
  apply (reports_within_bind [] [_; _; _]);
    [apply reports_within_silent, get_model_silent|intros model].
  apply (reports_within_bind [_] [_; _]); [apply reports_within_call_report|intros _].
  apply (reports_within_bind [] [_; _]);
    [apply reports_within_silent, preprocess_input_silent|intros x].
  apply (reports_within_bind [_] [_]); [apply reports_within_call_report|intros _].
  apply (reports_within_bind [] [_]);
    [apply reports_within_silent, model_predict_silent|intros scores].
  apply (reports_within_bind [] [_]);
    [apply reports_within_silent, decode_predictions_silent|intros decoded].
  apply (reports_within_bind [_] []); [apply reports_within_call_report|intros _].
  apply reports_within_silent. intros w'. apply of_option_silent.
Qed.

End Checkpoints.

Section DefaultImage.

Context `{Library}.

Lemma preprocess_input_None self w :
  preprocess_input self None w = ([], Raised AttributeError w).
Proof. reflexivity. Qed.

Lemma lib_calls_app (t1 t2 : list Event) :
  lib_calls (t1 ++ t2)%list = (lib_calls t1 ++ lib_calls t2)%list.
Proof. apply omap_app. Qed.

Lemma lib_calls_Ui (u : list UiEvent) : lib_calls (map Ui u) = [].
Proof. induction u as [|e u IH]; [reflexivity|exact IH]. Qed.

Lemma get_model_lib_calls self w :
  lib_calls (trace_of (get_model self w)) = []
  \/ lib_calls (trace_of (get_model self w)) = [KerasInstantiate (keras_application self)].
Proof.
  destruct (cache w !! self) as [m|] eqn:Hc.
  - left. by rewrite (get_model_hit _ _ _ Hc).
  - right. by rewrite (get_model_miss _ _ Hc).
Qed.

Lemma call_report_run (f : Callback) message value w :
  call_report f message value w
  = (Report message value :: map Ui (trace_of (f message value w)),
     snd (f message value w)).
Proof. unfold call_report, trace_of. by destruct (f message value w). Qed.

Lemma trace_of_pair {E A} (t : list E) (o : Outcome A) : trace_of (t, o) = t.
Proof. reflexivity. Qed.

Ltac norm_trace :=
  repeat first
    [ rewrite trace_of_pair | rewrite reports_app | rewrite lib_calls_app | rewrite reports_Ui
    | rewrite lib_calls_Ui | rewrite app_nil_r
    | progress change (reports (Report ?m ?v :: ?l)) with ((m, v) :: reports l)
    | progress change (lib_calls (Report ?m ?v :: ?l)) with (lib_calls l)
    | progress simpl ].

(** X2: [get_top_predictions] called without an image (the default
    [image=None]) never returns: it reports at most the first two
    checkpoints and calls no library function except, at most once, the
    constructor of the model.  With both defaults, [print] as the callback,
    and weights that load, it prints the two lines, fetches the model and
    raises [AttributeError]. *)
Theorem get_top_predictions_without_image :
  (forall self (f : Callback) w,
     let r := get_top_predictions self None f w in
     completed r = false /\
     reports (trace_of r) `prefix_of` take 2 (checkpoints self) /\
     (lib_calls (trace_of r) = []
      \/ lib_calls (trace_of r) = [KerasInstantiate (keras_application self)])) /\
  (forall self w,
     keras_weights_available (keras_application self) = true ->
     exists t model w',
       get_model self w = (t, Ok model w') /\
       get_top_predictions self None print w
       = ((Report ("Loading " ++ name self
                   ++ " model ... (This might take from seconds to several minutes)") 10
           :: Ui (Stdout (("Loading " ++ name self
                   ++ " model ... (This might take from seconds to several minutes)")
                  ++ " 10"))
           :: t)
          ++ [Report "Processing image ... " 67;
              Ui (Stdout "Processing image ...  67")],
          Raised AttributeError w')%list).
Proof.
  split.
  - intros self f w r. subst r. unfold get_top_predictions.
    rewrite completed_bind, trace_bind, call_report_run. simpl.
    destruct (f _ 10 w) as [u1 [[] w1|e1 w1]]; norm_trace.
    2:{ repeat split; auto. by apply prefix_cons, prefix_nil. }
    rewrite completed_bind, trace_bind.
    pose proof (get_model_lib_calls self w1) as Hlib.
    pose proof (get_model_silent self w1) as Hsilent.
    destruct (get_model self w1) as [tm [model w2|e2 w2]];
      rewrite trace_of_pair in Hlib, Hsilent; norm_trace; rewrite Hsilent.
    2:{ repeat split; auto. by apply prefix_cons, prefix_nil. }
    rewrite completed_bind, trace_bind, call_report_run. simpl.
    destruct (f _ 67 w2) as [u2 [[] w3|e3 w3]]; norm_trace.
    + rewrite completed_bind, preprocess_input_None. simpl.
      repeat split; auto.
    + repeat split; auto.
  - intros self w Hweights.
    destruct (cache w !! self) as [m|] eqn:Hc.
    + exists [], m, w. split; [by apply get_model_hit|].
      unfold get_top_predictions, mbind, M_bind, bind, call_report, print, emit.
      simpl. rewrite (get_model_hit _ _ _ Hc). reflexivity.
    + eexists _, _, _. split.
      * rewrite (get_model_miss _ _ Hc). simpl. rewrite Hweights. reflexivity.
      * unfold get_top_predictions, mbind, M_bind, bind, call_report, print, emit.
        simpl. rewrite (get_model_miss _ _ Hc). simpl. rewrite Hweights. reflexivity.
Qed.

End DefaultImage.

(** ** What every run keeps *)

#[global] Instance same_environ_preorder : PreOrder same_environ.
Proof.
  split.
  - by intros w.
  - intros w1 w2 w3 H12 H23. unfold same_environ in *. congruence.
Qed.

#[global] Instance sound_after_preorder : PreOrder sound_after.
Proof.
  split.
  - intros w Hs. exact Hs.
  - intros w1 w2 w3 H12 H23 Hs. by apply H23, H12.
Qed.

Section Keeps.

Context (R : relation World) `{!PreOrder R}.

Lemma keeps_ret {E A} (a : A) : keeps R (mret a : M E A).
Proof. intros w. change (R w w). reflexivity. Qed.

Lemma keeps_raise {E A} (e : Exn) : keeps R (raise e : M E A).
Proof. intros w. change (R w w). reflexivity. Qed.

Lemma keeps_emit {E} (ev : E) : keeps R (emit ev).
Proof. intros w. change (R w w). reflexivity. Qed.

Lemma keeps_get {E} : keeps R (get : M E World).
Proof. intros w. change (R w w). reflexivity. Qed.

Lemma keeps_of_option {E A} (e : Exn) (o : option A) : keeps R (of_option e o : M E A).
Proof. destruct o; intros w; change (R w w); reflexivity. Qed.

Lemma keeps_modify {E} (f : World -> World) :
  (forall w, R w (f w)) -> keeps R (modify f : M E unit).
Proof. intros Hf w. apply Hf. Qed.

Lemma keeps_bind {E A B} (m : M E A) (k : A -> M E B) :
  keeps R m -> (forall a, keeps R (k a)) -> keeps R (m ≫= k).
Proof.
  intros Hm Hk w. specialize (Hm w).
  unfold mbind, M_bind, bind, world_of in *.
  destruct (m w) as [t [a w1|e w1]]; simpl in *; [|exact Hm].
  specialize (Hk a w1). unfold world_of in Hk.
  destruct (k a w1) as [t' o]. simpl in *. by etrans.
Qed.

Lemma keeps_call_report (f : Callback) message value :
  keeps R (f message value) -> keeps R (call_report f message value).
Proof.
  intros Hf w. specialize (Hf w). unfold call_report, world_of in *.
  by destruct (f message value w).
Qed.

End Keeps.

Create HintDb keeps.
#[global] Hint Resolve keeps_ret keeps_raise keeps_emit keeps_get keeps_of_option
  keeps_call_report : keeps.

Ltac keeps_step :=
  lazymatch goal with
  | |- keeps _ (_ ≫= _) => apply keeps_bind; [tc_solve| |intros ?]
  | |- keeps _ (modify _) => apply keeps_modify; intros ?
  | |- keeps _ (match ?x with _ => _ end) => destruct x
  | |- _ => solve [eauto with keeps typeclass_instances]
  end.

Ltac keeps_auto := repeat keeps_step.

Section KeepsProgram.

Context `{Library}.
Context (R : relation World) `{!PreOrder R}.
Hypothesis R_environ : forall f w, R w (set_environ_of f w).
Hypothesis R_placeholders : forall f w, R w (set_placeholders f w).
Hypothesis R_get_model : forall self, keeps R (get_model self).

Lemma keeps_preprocess_input self image : keeps R (preprocess_input self image).
Proof.
  unfold preprocess_input, to_input_shape, Image_resize, img_to_array,
    np_expand_dims, call_preprocess.
  keeps_auto.
Qed.

Lemma keeps_report_progress progress progress_bar message value :
  keeps R (report_progress progress progress_bar message value).
Proof.
  unfold report_progress, St.slot_empty, St.slot_progress, St.slot_markdown.
  keeps_auto.
Qed.

Lemma keeps_get_top_predictions self image (f : Callback) :
  (forall message value, keeps R (f message value)) ->
  keeps R (get_top_predictions self image f).
Proof.
  intros Hf. unfold get_top_predictions, model_predict, decode_predictions.
  pose proof keeps_preprocess_input.
  keeps_auto.
Qed.


End KeepsProgram.

(** ** The store of models *)

Section Store.

Context `{Library}.




Lemma world_of_modify_bind {E B} (f : World -> World) (k : unit -> M E B) w :
  world_of ((modify f ≫= k) w) = world_of (k tt (f w)).
Proof.
  unfold mbind, M_bind, bind, modify, world_of. simpl.
  by destruct (k tt (f w)).
Qed.

Lemma get_model_same_environ self : keeps same_environ (get_model self).
Proof.
  intros w. destruct (cache w !! self) as [m|] eqn:Hc.
  - by rewrite (get_model_hit _ _ _ Hc).
  - rewrite (get_model_miss _ _ Hc). unfold world_of. simpl.
    by destruct (keras_weights_available _).
Qed.

(** X5: whatever a run of the script does and however it ends, it has
    set [TF_CPP_MIN_LOG_LEVEL] to "2" in [os.environ] and changed no other
    variable. *)
Theorem main_sets_log_level_only :
  forall w, environ (world_of (main w)) = <["TF_CPP_MIN_LOG_LEVEL" := "2"]> (environ w).
Proof.
  intros w. unfold main, set_environ. rewrite world_of_modify_bind. cbv beta.
  change (<["TF_CPP_MIN_LOG_LEVEL" := "2"]> (environ w))
    with (environ (set_environ_of <["TF_CPP_MIN_LOG_LEVEL" := "2"]> w)).
  match goal with
  | |- environ (world_of (?m ?w0)) = _ =>
      cut (keeps same_environ m); [intros Hk; exact (Hk w0)|]
  end.
  unfold St.title, St.info, St.sidebar_selectbox, St.sidebar_info,
    St.file_uploader, St.image, Image_open, St.empty, St.subheader, St.write,
    St.altair_chart.
  assert (Hset : forall f w0, same_environ w0 (set_placeholders f w0)) by done.
  pose proof (keeps_get_top_predictions same_environ get_model_same_environ) as Hg.
  pose proof (keeps_report_progress same_environ Hset) as Hr.
  keeps_auto.
Qed.

End Store.

(** ** The script with an upload *)

Section Upload.

Context `{Library}.

(** X6: when the upload is not an image PIL can decode, the script stops in
    [st.image], the call that decodes it first: it has rendered the page
    head only, the exception of that call ends the run, [Image.open] is
    never called, no placeholder is made, no progress is reported, no model
    is fetched, and only [os.environ] has changed. *)
Theorem main_upload_not_an_image :
  forall w file model,
    uploaded w = Some file ->
    registry w !! selected w = Some model ->
    pil_open file = None ->
    exists e,
      main w
      = (page_head w model,
         Raised e (set_environ_of <["TF_CPP_MIN_LOG_LEVEL" := "2"]> w)).
Proof.
  intros w file model Hup Hsel Hopen.
  unfold main, set_environ, St.title, St.info, St.sidebar_selectbox, St.sidebar_info,
    St.file_uploader, St.image.
  unfold mbind, M_bind, bind, mret, M_ret, emit, get, modify. simpl.
  rewrite Hsel. simpl. unfold ret. simpl. rewrite Hup. simpl.
  rewrite Hopen. by eexists.
Qed.

Lemma insert_last_two (l : list Widget) a b c d :
  <[S (length l) := a]> (<[length l := b]> ((l ++ [c]) ++ [d])%list) = (l ++ [b; a])%list.
Proof.
  rewrite <- app_assoc. simpl.
  rewrite (insert_app_r_alt l _ (length l)) by lia.
  rewrite (insert_app_r_alt l _ (S (length l))) by lia.
  replace (length l - length l)%nat with 0%nat by lia.
  replace (S (length l) - length l)%nat with 1%nat by lia.
  reflexivity.
Qed.

(** X7: the script catches nothing: when [get_model] raises an exception
    for the selected model, whatever its class, the run ends with that
    exception right after the first progress report, having called nothing
    after [get_model]; the two placeholders keep showing 10 percent and the
    loading message, since the call that clears them is never reached. *)
Theorem main_model_not_loaded :
  forall w file model image load e w1,
    uploaded w = Some file ->
    registry w !! selected w = Some model ->
    pil_open file = Some image ->
    get_model model w = (load, Raised e w1) ->
    let n := length (placeholders w) in
    let loading := "Loading " ++ name model
                   ++ " model ... (This might take from seconds to several minutes)" in
    exists w',
      main w
      = ((page_head w model
          ++ [Ui (StImage file); Lib PilOpen; Ui (StEmpty n); Ui (StEmpty (S n));
              Report loading 10;
              Ui (SlotProgress n 10); Ui (SlotMarkdown (S n) loading)]
          ++ load)%list,
         Raised e w') /\
      placeholders w' = (placeholders w ++ [WProgress 10; WMarkdown loading])%list /\
      cache w' = cache w1.
Proof.
  intros w file model image load e w1 Hup Hsel Hopen Hmodel n loading.
  assert (Hmiss : cache w !! model = None).
  { destruct (cache w !! model) as [m|] eqn:Hc; [|reflexivity].
    rewrite (get_model_hit _ _ _ Hc) in Hmodel. discriminate. }
  rewrite (get_model_miss _ _ Hmiss) in Hmodel. simpl in Hmodel.
  destruct (keras_weights_available (keras_application model)) eqn:Hweights;
    [discriminate|].
  injection Hmodel as <- <- <-.
  unfold main, set_environ, St.title, St.info, St.sidebar_selectbox, St.sidebar_info,
    St.file_uploader, St.image, Image_open, St.empty, get_top_predictions.
  unfold mbind, M_bind, bind, mret, M_ret, emit, get, modify, call_report. simpl.
  rewrite Hsel. simpl. unfold ret. simpl. rewrite Hup. simpl.
  rewrite Hopen. simpl.
  rewrite get_model_miss by exact Hmiss. simpl. rewrite Hweights.
  replace (length (placeholders w ++ [WEmpty])) with (S n)
    by (rewrite length_app; simpl; lia).
  eexists. split; [reflexivity|]. split; [|reflexivity].
  simpl. apply insert_last_two.
Qed.

Lemma insert_two_after (l : list Widget) a b c d :
  <[S (length l) := a]> (<[length l := b]> (l ++ [c; d])%list) = (l ++ [b; a])%list.
Proof. rewrite <- (insert_last_two l a b c d), <- app_assoc. reflexivity. Qed.

(** X8: when the upload decodes to an image whose bands the preprocessing
    function takes, the model is available, the input shape is positive,
    prediction and decoding succeed and the top list is not empty, the
    script returns; it renders, in this order, the page head, the
    image, the two placeholders, the four progress reports with what they
    show, the library calls between them, and then the two subheaders with
    the sentence and the chart of the predictions.  Both placeholders end
    empty and the model is in the store. *)
Theorem main_upload_classified :
  forall w file model image load m w1 scores predictions rest sentence,
    uploaded w = Some file ->
    registry w !! selected w = Some model ->
    pil_open file = Some image ->
    get_model model w = (load, Ok m w1) ->
    0 < (input_shape model).1 -> 0 < (input_shape model).2 ->
    preprocess_input_func model = inception_v3_preprocess_input \/ 3 <= bands image ->
    keras_predict m (preprocessed model image) = Some scores ->
    keras_decode_predictions scores = Some (predictions :: rest) ->
    to_main_prediction_string predictions = Some sentence ->
    let n := length (placeholders w) in
    let loading := "Loading " ++ name model
                   ++ " model ... (This might take from seconds to several minutes)" in
    let classifying := "Classifying image with '" ++ name model ++ "'... " in
    exists chart w',
      to_predictions_chart predictions = Some chart /\
      main w
      = ((page_head w model
          ++ [Ui (StImage file); Lib PilOpen; Ui (StEmpty n); Ui (StEmpty (S n));
              Report loading 10;
              Ui (SlotProgress n 10); Ui (SlotMarkdown (S n) loading)]
          ++ load
          ++ [Report "Processing image ... " 67;
              Ui (SlotProgress n 67); Ui (SlotMarkdown (S n) "Processing image ... ")]
          ++ preprocess_trace model
          ++ [Report classifying 85;
              Ui (SlotProgress n 85); Ui (SlotMarkdown (S n) classifying);
              Lib (KerasPredict m); Lib KerasDecodePredictions;
              Report "" 0; Ui (SlotEmpty n); Ui (SlotEmpty (S n));
              Ui (StSubheader "Main Prediction"); Ui (StWrite sentence);
              Ui (StSubheader "Alternative Predictions"); Ui (StAltairChart chart)])%list,
         Ok tt w') /\
      placeholders w' = (placeholders w ++ [WEmpty; WEmpty])%list /\
      cache w' = cache w1.
Proof.
  intros w file model image load m w1 scores predictions rest sentence
    Hup Hsel Hopen Hmodel Hw Hh Hbands Hpredict Hdecode Hsentence n loading classifying.
  destruct (to_predictions_chart_data predictions) as (chart & Hchart & _).
  exists chart.
  unfold main, set_environ, St.title, St.info, St.sidebar_selectbox, St.sidebar_info,
    St.file_uploader, St.image, Image_open, St.empty, St.subheader, St.write,
    St.altair_chart, get_top_predictions, model_predict, decode_predictions.
  unfold mbind, M_bind, bind, mret, M_ret, emit, get, modify, call_report. simpl.
  rewrite Hsel. simpl. unfold ret. simpl. rewrite Hup. simpl.
  rewrite Hopen. simpl.
  replace (length (placeholders w ++ [WEmpty])) with (S n)
    by (rewrite length_app; simpl; lia).
  destruct (cache w !! model) as [m0|] eqn:Hc.
  - rewrite (get_model_hit _ _ _ Hc) in Hmodel. injection Hmodel as <- <- <-.
    rewrite (get_model_hit _ _ m0) by exact Hc. simpl.
    rewrite preprocess_input_positive by assumption. simpl.
    rewrite Hpredict. simpl. rewrite Hdecode. simpl. rewrite Hsentence. simpl.
    rewrite Hchart. simpl.
    eexists. split; [reflexivity|]. split; [reflexivity|]. split; [|reflexivity].
    simpl. subst n. rewrite insert_last_two, !insert_two_after. reflexivity.
  - rewrite (get_model_miss _ _ Hc) in Hmodel. simpl in Hmodel.
    destruct (keras_weights_available (keras_application model)) eqn:Hweights;
      [|discriminate].
    injection Hmodel as <- <- <-.
    rewrite get_model_miss by exact Hc. simpl. rewrite Hweights. simpl.
    rewrite preprocess_input_positive by assumption. simpl.
    rewrite Hpredict. simpl. rewrite Hdecode. simpl. rewrite Hsentence. simpl.
    rewrite Hchart. simpl.
    eexists. split; [reflexivity|]. split; [reflexivity|]. split; [|reflexivity].
    simpl. subst n. rewrite insert_last_two, !insert_two_after. reflexivity.
Qed.



Ltac main_tail :=
  rewrite preprocess_input_run;
  destruct (_ || _) eqn:Hshape; simpl; [discriminate|];
  match goal with
  | |- context [ takes_bands ?f ?b ] =>
      destruct (takes_bands f b) eqn:Hbands; simpl; [|discriminate];
      apply takes_bands_iff in Hbands
  end;
  match goal with
  | |- context [ keras_predict ?m ?x ] =>
      destruct (keras_predict m x) as [scores|] eqn:Hpredict; simpl; [|discriminate]
  end;
  match goal with
  | |- context [ keras_decode_predictions ?x ] =>
      destruct (keras_decode_predictions x) as [[|predictions rest]|] eqn:Hdecode;
      simpl; [discriminate| |discriminate]
  end;
  match goal with
  | |- context [ to_main_prediction_string ?x ] =>
      destruct (to_main_prediction_string x) as [sentence|] eqn:Hsentence;
      simpl; [|discriminate]
  end;
  apply orb_false_iff in Hshape as [Hw%Z.ltb_ge Hh%Z.ltb_ge].

(** X9: a run of the script with an upload returns only if a profile is
    selected, the upload decodes, the model is available, the input shape of
    the profile is positive, the image has at least three bands or the
    profile uses the Inception preprocessing function, prediction and
    decoding succeed, and the top list has a first entry. *)
Theorem main_returns_only_if_classified :
  forall w file t w',
    uploaded w = Some file ->
    main w = (t, Ok tt w') ->
    exists model image load m w1 scores predictions rest sentence,
      registry w !! selected w = Some model /\
      pil_open file = Some image /\
      get_model model w = (load, Ok m w1) /\
      0 < (input_shape model).1 /\ 0 < (input_shape model).2 /\
      (preprocess_input_func model = inception_v3_preprocess_input
       \/ 3 <= bands image) /\
      keras_predict m (preprocessed model image) = Some scores /\
      keras_decode_predictions scores = Some (predictions :: rest) /\
      to_main_prediction_string predictions = Some sentence.
Proof.
  intros w file t w' Hup.
  unfold main, set_environ, St.title, St.info, St.sidebar_selectbox, St.sidebar_info,
    St.file_uploader, St.image, Image_open, St.empty, St.subheader, St.write,
    St.altair_chart, get_top_predictions, model_predict, decode_predictions.
  unfold mbind, M_bind, bind, mret, M_ret, emit, get, modify, call_report. simpl.
  destruct (registry w !! selected w) as [model|]; simpl; unfold ret, raise; simpl;
    [|discriminate].
  rewrite Hup. simpl.
  destruct (pil_open file) as [image|]; simpl; [|discriminate].
  destruct (cache w !! model) as [m0|] eqn:Hc.
  - rewrite (get_model_hit _ _ m0) by exact Hc. simpl.
    main_tail. intros _.
    exists model, image, [], m0, w, scores, predictions, rest, sentence.
    rewrite (get_model_hit _ _ _ Hc). repeat split; auto; lia.
  - rewrite get_model_miss by exact Hc. simpl.
    destruct (keras_weights_available (keras_application model)) eqn:Hweights;
      simpl; [|discriminate].
    main_tail. intros _.
    eexists model, image, _, _, _, scores, predictions, rest, sentence.
    rewrite (get_model_miss _ _ Hc). simpl. rewrite Hweights.
    repeat split; eauto; lia.
Qed.

(** X10: when all goes well up to the decoder and the decoder returns an
    empty top list, the script clears the progress, renders the subheader "Main Prediction" and raises
    [IndexError]: no sentence and no chart is rendered. *)
Theorem main_empty_predictions :
  forall w file model image load m w1 scores rest,
    uploaded w = Some file ->
    registry w !! selected w = Some model ->
    pil_open file = Some image ->
    get_model model w = (load, Ok m w1) ->
    0 < (input_shape model).1 -> 0 < (input_shape model).2 ->
    preprocess_input_func model = inception_v3_preprocess_input \/ 3 <= bands image ->
    keras_predict m (preprocessed model image) = Some scores ->
    keras_decode_predictions scores = Some ([] :: rest) ->
    exists t w',
      main w = ((t ++ [Report "" 0;
                       Ui (SlotEmpty (length (placeholders w)));
                       Ui (SlotEmpty (S (length (placeholders w))));
                       Ui (StSubheader "Main Prediction")])%list,
                Raised IndexError w') /\
      Forall (fun ev => is_prediction_output ev = false) t /\
      placeholders w' = (placeholders w ++ [WEmpty; WEmpty])%list.
Proof.
  intros w file model image load m w1 scores rest
    Hup Hsel Hopen Hmodel Hw Hh Hbands Hpredict Hdecode.
  unfold main, set_environ, St.title, St.info, St.sidebar_selectbox, St.sidebar_info,
    St.file_uploader, St.image, Image_open, St.empty, St.subheader, St.write,
    St.altair_chart, get_top_predictions, model_predict, decode_predictions.
  unfold mbind, M_bind, bind, mret, M_ret, emit, get, modify, call_report. simpl.
  rewrite Hsel. simpl. unfold ret. simpl. rewrite Hup. simpl.
  rewrite Hopen. simpl.
  replace (length (placeholders w ++ [WEmpty])) with (S (length (placeholders w)))
    by (rewrite length_app; simpl; lia).
  destruct (cache w !! model) as [m0|] eqn:Hc.
  - rewrite (get_model_hit _ _ _ Hc) in Hmodel. injection Hmodel as <- <- <-.
    rewrite (get_model_hit _ _ m0) by exact Hc. simpl.
    rewrite preprocess_input_positive by assumption. simpl.
    rewrite Hpredict. simpl. rewrite Hdecode. simpl.
    eexists (_ :: _ :: _ :: _ :: _ :: _ :: _ :: _ :: _ :: _ :: _ :: _ :: _ :: _ :: _
             :: _ :: _ :: _ :: _ :: _ :: _ :: _ :: _ :: _ :: []), _.
    split; [reflexivity|]. split; [repeat constructor|].
    simpl. rewrite insert_last_two, !insert_two_after. reflexivity.
  - rewrite (get_model_miss _ _ Hc) in Hmodel. simpl in Hmodel.
    destruct (keras_weights_available (keras_application model)) eqn:Hweights;
      [|discriminate].
    injection Hmodel as <- <- <-.
    rewrite get_model_miss by exact Hc. simpl. rewrite Hweights. simpl.
    rewrite preprocess_input_positive by assumption. simpl.
    rewrite Hpredict. simpl. rewrite Hdecode. simpl.
    eexists (_ :: _ :: _ :: _ :: _ :: _ :: _ :: _ :: _ :: _ :: _ :: _ :: _ :: _ :: _
             :: _ :: _ :: _ :: _ :: _ :: _ :: _ :: _ :: _ :: _ :: []), _.
    split; [reflexivity|]. split; [repeat constructor|].
    simpl. rewrite insert_last_two, !insert_two_after. reflexivity.
Qed.

End Upload.

(** ** Loading an image from a file *)

Section LoadImageFacts.

Context `{Library}.
Variable keras_open_rgb : string -> option (Image pixels).
Variable pil_resample_nearest : Image pixels -> Z * Z -> pixels.

Lemma load_image_Ok self path w t img w' :
  load_image keras_open_rgb pil_resample_nearest self path w = (t, Ok img w') ->
  size img = ((input_shape self).2, (input_shape self).1) /\ w' = w /\
  exists opened, keras_open_rgb path = Some opened.
Proof.
  unfold load_image, load_img.
  unfold mbind, M_bind, bind, mret, M_ret, ret, emit, raise. simpl.
  destruct (keras_open_rgb path) as [opened|]; simpl; [|discriminate].
  destruct (decide (size opened = _)) as [Hsize|Hsize]; simpl.
  - intros [= <- <- <-]. eauto.
  - destruct (_ || _); simpl; [discriminate|].
    intros [= <- <- <-]. eauto.
Qed.

Lemma to_input_shape_Ok self image w t img w' :
  to_input_shape self image w = (t, Ok img w') ->
  size img = input_shape self /\ w' = w.
Proof.
  destruct image as [im|]; [|discriminate].
  unfold to_input_shape, Image_resize.
  unfold mbind, M_bind, bind, mret, M_ret, ret, emit, raise. simpl.
  destruct (_ || _); simpl; [discriminate|].
  by intros [= <- <- <-].
Qed.

(** X11: [load_image] reads [input_shape] as (height, width), as
    [load_img] takes its [target_size], while [to_input_shape] reads it as
    (width, height), as [Image.resize] takes its size: the image loaded from
    a file has the transposed size of the resized one.  The two agree
    exactly for square input shapes, which all profiles of the registry
    have. *)
Theorem load_image_size_transposed :
  forall self path image w1 w2 t1 t2 loaded resized w1' w2',
    load_image keras_open_rgb pil_resample_nearest self path w1 = (t1, Ok loaded w1') ->
    to_input_shape self image w2 = (t2, Ok resized w2') ->
    size loaded = ((size resized).2, (size resized).1) /\
    (size loaded = size resized <-> (input_shape self).1 = (input_shape self).2) /\
    (self ∈ KERAS_APPLICATIONS -> size loaded = size resized).
Proof.
  intros self path image w1 w2 t1 t2 loaded resized w1' w2' Hload Hresize.
  apply load_image_Ok in Hload as (Hl & _ & _).
  apply to_input_shape_Ok in Hresize as (Hr & _).
  rewrite Hl, Hr. split; [reflexivity|]. split.
  - destruct (input_shape self) as [a b]. simpl. split.
    + by intros [= -> _].
    + by intros ->.
  - intros Hin.
    pose proof (proj1 (Forall_forall _ _) registry_shapes_square self Hin) as Hsq.
    cbv beta in Hsq. revert Hsq. destruct (input_shape self) as [a b]. simpl.
    by intros ->.
Qed.

End LoadImageFacts.

(** ** What is returned *)


(** ** The further properties at concrete runs *)

Lemma get_top_predictions_without_image_witness :
  @keras_weights_available example_library (keras_application example_application) = true /\
  snd (@get_top_predictions example_library example_application None print example_world)
  = Raised AttributeError
      (world_of (@get_model example_library example_application example_world)).
Proof.
  assert (Hweights : @keras_weights_available example_library
                       (keras_application example_application) = true) by reflexivity.
  split; [exact Hweights|].
  destruct (proj2 (@get_top_predictions_without_image example_library)
              example_application example_world Hweights)
    as (t & model & w' & Hmodel & Hrun).
  rewrite Hrun, Hmodel. reflexivity.
Defined.


Lemma main_upload_not_an_image_witness :
  uploaded (initial_world 0 (Some [])) = Some [] /\
  @pil_open undecodable_library [] = None /\
  exists e,
    @main undecodable_library (initial_world 0 (Some []))
    = (page_head (initial_world 0 (Some [])) example_application,
       Raised e
         (set_environ_of <["TF_CPP_MIN_LOG_LEVEL" := "2"]> (initial_world 0 (Some [])))).
Proof.
  assert (Hup : uploaded (initial_world 0 (Some [])) = Some []) by reflexivity.
  assert (Hopen : @pil_open undecodable_library [] = None) by reflexivity.
  split; [exact Hup|]. split; [exact Hopen|].
  exact (@main_upload_not_an_image undecodable_library (initial_world 0 (Some [])) []
           example_application Hup eq_refl Hopen).
Defined.

Lemma main_model_not_loaded_witness :
  @get_model offline_library example_application (initial_world 0 (Some []))
  = ([Lib (KerasInstantiate ResNet50)], Raised Exception (initial_world 0 (Some []))) /\
  exists w',
    snd (@main offline_library (initial_world 0 (Some []))) = Raised Exception w' /\
    placeholders w'
    = [WProgress 10;
       WMarkdown
         "Loading ResNet50 model ... (This might take from seconds to several minutes)"].
Proof.
  assert (Hmodel : @get_model offline_library example_application
                     (initial_world 0 (Some []))
                   = ([Lib (KerasInstantiate ResNet50)],
                      Raised Exception (initial_world 0 (Some []))))
    by reflexivity.
  split; [exact Hmodel|].
  destruct (@main_model_not_loaded offline_library (initial_world 0 (Some [])) []
              example_application example_image _ _ _ eq_refl eq_refl eq_refl Hmodel)
    as (w' & Hrun & Hshown & _).
  exists w'. rewrite Hrun. split; [reflexivity|exact Hshown].
Defined.

Lemma example_get_model :
  let r := @get_model example_library example_application (initial_world 0 (Some [])) in
  r = ([Lib (KerasInstantiate ResNet50)],
       Ok {| handle_arch := ResNet50; handle_ref := 0 |} (world_of r)).
Proof. vm_compute. reflexivity. Defined.

Lemma main_upload_classified_witness :
  to_main_prediction_string example_predictions
  = Some "It's a **Cat** with probability 87%" /\
  exists chart w',
    to_predictions_chart example_predictions = Some chart /\
    snd (@main example_library (initial_world 0 (Some []))) = Ok tt w' /\
    placeholders w' = [WEmpty; WEmpty].
Proof.
  assert (Hsentence : to_main_prediction_string example_predictions
                      = Some "It's a **Cat** with probability 87%")
    by (vm_compute; reflexivity).
  split; [exact Hsentence|].
  destruct (@main_upload_classified example_library (initial_world 0 (Some [])) []
              example_application example_image _ _ _
              {| shape := [1; 1000]; elements := tt |} example_predictions [] _
              eq_refl eq_refl eq_refl example_get_model eq_refl eq_refl
              (or_intror (Z.le_refl 3)) eq_refl eq_refl Hsentence)
    as (chart & w' & Hchart & Hrun & Hslots & _).
  exists chart, w'. rewrite Hrun.
  split; [exact Hchart|]. split; [reflexivity|exact Hslots].
Defined.

Lemma main_returns_only_if_classified_witness :
  uploaded (initial_world 0 (Some [])) = Some [] /\
  exists model predictions sentence,
    registry (initial_world 0 (Some [])) !! selected (initial_world 0 (Some []))
    = Some model /\
    to_main_prediction_string predictions = Some sentence.
Proof.
  assert (Hup : uploaded (initial_world 0 (Some [])) = Some []) by reflexivity.
  split; [exact Hup|].
  set (r := @main example_library (initial_world 0 (Some []))).
  assert (Hrun : r = (fst r, Ok tt (world_of r))) by (vm_compute; reflexivity).
  destruct (@main_returns_only_if_classified example_library
              (initial_world 0 (Some [])) [] _ _ Hup Hrun)
    as (model & image & load & m & w1 & scores & predictions & rest & sentence
        & Hsel & _ & _ & _ & _ & _ & _ & _ & Hsentence).
  by exists model, predictions, sentence.
Defined.

Lemma empty_top_get_model :
  let r := @get_model empty_top_library example_application (initial_world 0 (Some [])) in
  r = ([Lib (KerasInstantiate ResNet50)],
       Ok {| handle_arch := ResNet50; handle_ref := 0 |} (world_of r)).
Proof. vm_compute. reflexivity. Defined.

Lemma main_empty_predictions_witness :
  @keras_decode_predictions empty_top_library {| shape := [1; 1000]; elements := tt |}
  = Some [[]] /\
  exists w',
    snd (@main empty_top_library (initial_world 0 (Some []))) = Raised IndexError w' /\
    placeholders w' = [WEmpty; WEmpty].
Proof.
  assert (Hdecode : @keras_decode_predictions empty_top_library
                      {| shape := [1; 1000]; elements := tt |} = Some [[]])
    by reflexivity.
  split; [exact Hdecode|].
  destruct (@main_empty_predictions empty_top_library (initial_world 0 (Some [])) []
              example_application
              {| size := (640, 480); bands := 3; raster := tt |} _ _ _
              {| shape := [1; 1000]; elements := tt |} []
              eq_refl eq_refl eq_refl empty_top_get_model eq_refl eq_refl
              (or_intror (Z.le_refl 3)) eq_refl Hdecode)
    as (t & w' & Hrun & _ & Hslots).
  exists w'. rewrite Hrun. split; [reflexivity|exact Hslots].
Defined.

Lemma load_image_size_transposed_witness :
  exists loaded resized : Image unit,
    size loaded = (200, 320) /\ size resized = (320, 200) /\
    size loaded = ((size resized).2, (size resized).1).
Proof.
  set (r1 := @load_image example_library example_files (fun _ _ => tt)
               wide_application "cat.jpg" example_world).
  set (r2 := @to_input_shape example_library wide_application (Some example_image)
               example_world).
  assert (H1 : r1 = (fst r1, Ok {| size := (200, 320); bands := 3; raster := tt |}
                               example_world)) by (vm_compute; reflexivity).
  assert (H2 : r2 = (fst r2, Ok {| size := (320, 200); bands := 3; raster := tt |}
                               example_world)) by (vm_compute; reflexivity).
  exists {| size := (200, 320); bands := 3; raster := tt |},
    {| size := (320, 200); bands := 3; raster := tt |}.
  split; [reflexivity|]. split; [reflexivity|].
  exact (proj1 (@load_image_size_transposed example_library example_files
                  (fun _ _ => tt) wide_application "cat.jpg" (Some example_image)
                  _ _ _ _ _ _ _ _ H1 H2)).
Defined.

